(** * A verified model of the contact ledger ([address_book.py])

    The development embeds the record and ledger classes of
    [address_book.py] together with the parts of the Python runtime they
    call ([str.isnumeric], [datetime.strptime], [date.replace], date
    arithmetic, [strftime]) and proves or refutes the properties of the
    specification against that embedding.

    Conventions.  A Python [str] is a sequence of Unicode code points and
    is modelled as [list Z]; integers are [Z]; a method that mutates
    [self] takes the object and returns the new object (together with
    the returned value, when there is one); a call that may raise returns
    a [result]. *)

From Stdlib Require Import ZArith Lia List Bool Ascii String.
From Stdlib Require DecimalString.
From stdpp Require Import base decidable option list.
Import ListNotations.
Local Open Scope Z_scope.

(** ** Python strings *)

Abbreviation str := (list Z).

Module PyStr.

(** An ASCII literal of the source, as a sequence of code points. *)
Definition lit (s : string) : str :=
  map (fun a => Z.of_N (N_of_ascii a)) (list_ascii_of_string s).

(** [len(s)] *)
Definition len (s : str) : Z := Z.of_nat (length s).

(** [a == b] on strings *)
Definition eqb (a b : str) : bool := bool_decide (a = b).

Definition in_ranges (tbl : list (Z * Z)) (c : Z) : bool :=
  existsb (fun r => (fst r <=? c) && (c <=? snd r)) tbl.

(** Code points whose Unicode [Numeric_Type] is Decimal, Digit or Numeric
    (Unicode 14.0, the table behind [str.isnumeric]), as inclusive ranges. *)
Definition NUMERIC_RANGES : list (Z * Z) :=
  [
    (48, 57); (178, 179); (185, 185); (188, 190); (1632, 1641); (1776, 1785);
    (1984, 1993); (2406, 2415); (2534, 2543); (2548, 2553); (2662, 2671);
    (2790, 2799); (2918, 2927); (2930, 2935); (3046, 3058); (3174, 3183);
    (3192, 3198); (3302, 3311); (3416, 3422); (3430, 3448); (3558, 3567);
    (3664, 3673); (3792, 3801); (3872, 3891); (4160, 4169); (4240, 4249);
    (4969, 4988); (5870, 5872); (6112, 6121); (6128, 6137); (6160, 6169);
    (6470, 6479); (6608, 6618); (6784, 6793); (6800, 6809); (6992, 7001);
    (7088, 7097); (7232, 7241); (7248, 7257); (8304, 8304); (8308, 8313);
    (8320, 8329); (8528, 8578); (8581, 8585); (9312, 9371); (9450, 9471);
    (10102, 10131); (11517, 11517); (12295, 12295); (12321, 12329);
    (12344, 12346); (12690, 12693); (12832, 12841); (12872, 12879);
    (12881, 12895); (12928, 12937); (12977, 12991); (13317, 13317);
    (13443, 13443); (14378, 14378); (15181, 15181); (19968, 19968);
    (19971, 19971); (19975, 19975); (19977, 19977); (20061, 20061);
    (20108, 20108); (20116, 20116); (20118, 20118); (20159, 20160);
    (20191, 20191); (20200, 20200); (20237, 20237); (20336, 20336);
    (20740, 20740); (20806, 20806); (20841, 20841); (20843, 20843);
    (20845, 20845); (21313, 21313); (21315, 21317); (21324, 21324);
    (21441, 21444); (22235, 22235); (22769, 22769); (22777, 22777);
    (24186, 24186); (24318, 24319); (24332, 24334); (24336, 24336);
    (25342, 25342); (25420, 25420); (26578, 26578); (28422, 28422);
    (29590, 29590); (30334, 30334); (32902, 32902); (33836, 33836);
    (36014, 36014); (36019, 36019); (36144, 36144); (38433, 38433);
    (38470, 38470); (38476, 38476); (38520, 38520); (38646, 38646);
    (42528, 42537); (42726, 42735); (43056, 43061); (43216, 43225);
    (43264, 43273); (43472, 43481); (43504, 43513); (43600, 43609);
    (44016, 44025); (63851, 63851); (63859, 63859); (63864, 63864);
    (63922, 63922); (63953, 63953); (63955, 63955); (63997, 63997);
    (65296, 65305); (65799, 65843); (65856, 65912); (65930, 65931);
    (66273, 66299); (66336, 66339); (66369, 66369); (66378, 66378);
    (66513, 66517); (66720, 66729); (67672, 67679); (67705, 67711);
    (67751, 67759); (67835, 67839); (67862, 67867); (68028, 68029);
    (68032, 68047); (68050, 68095); (68160, 68168); (68221, 68222);
    (68253, 68255); (68331, 68335); (68440, 68447); (68472, 68479);
    (68521, 68527); (68858, 68863); (68912, 68921); (69216, 69246);
    (69405, 69414); (69457, 69460); (69573, 69579); (69714, 69743);
    (69872, 69881); (69942, 69951); (70096, 70105); (70113, 70132);
    (70384, 70393); (70736, 70745); (70864, 70873); (71248, 71257);
    (71360, 71369); (71472, 71483); (71904, 71922); (72016, 72025);
    (72784, 72812); (73040, 73049); (73120, 73129); (73664, 73684);
    (74752, 74862); (92768, 92777); (92864, 92873); (93008, 93017);
    (93019, 93025); (93824, 93846); (119520, 119539); (119648, 119672);
    (120782, 120831); (123200, 123209); (123632, 123641); (125127, 125135);
    (125264, 125273); (126065, 126123); (126125, 126127); (126129, 126132);
    (126209, 126253); (126255, 126269); (127232, 127244); (130032, 130041);
    (131073, 131073); (131172, 131172); (131298, 131298); (131361, 131361);
    (133418, 133418); (133507, 133507); (133516, 133516); (133532, 133532);
    (133866, 133866); (133885, 133885); (133913, 133913); (140176, 140176);
    (141720, 141720); (146203, 146203); (156269, 156269); (194704, 194704)
  ].

(** Code points of general category [Nd] (the table behind [str.isdecimal],
    the regular-expression class [\d] and [int()]).  Every range is a
    union of blocks of ten consecutive code points for the digits 0 to 9. *)
Definition DECIMAL_RANGES : list (Z * Z) :=
  [
    (48, 57); (1632, 1641); (1776, 1785); (1984, 1993); (2406, 2415);
    (2534, 2543); (2662, 2671); (2790, 2799); (2918, 2927); (3046, 3055);
    (3174, 3183); (3302, 3311); (3430, 3439); (3558, 3567); (3664, 3673);
    (3792, 3801); (3872, 3881); (4160, 4169); (4240, 4249); (6112, 6121);
    (6160, 6169); (6470, 6479); (6608, 6617); (6784, 6793); (6800, 6809);
    (6992, 7001); (7088, 7097); (7232, 7241); (7248, 7257); (42528, 42537);
    (43216, 43225); (43264, 43273); (43472, 43481); (43504, 43513);
    (43600, 43609); (44016, 44025); (65296, 65305); (66720, 66729);
    (68912, 68921); (69734, 69743); (69872, 69881); (69942, 69951);
    (70096, 70105); (70384, 70393); (70736, 70745); (70864, 70873);
    (71248, 71257); (71360, 71369); (71472, 71481); (71904, 71913);
    (72016, 72025); (72784, 72793); (73040, 73049); (73120, 73129);
    (92768, 92777); (92864, 92873); (93008, 93017); (120782, 120831);
    (123200, 123209); (123632, 123641); (125264, 125273); (130032, 130041)
  ].

Definition isnumeric_char (c : Z) : bool := in_ranges NUMERIC_RANGES c.
Definition isdecimal_char (c : Z) : bool := in_ranges DECIMAL_RANGES c.

(** [s.isnumeric()]: every character is numeric and there is at least one. *)
Definition isnumeric (s : str) : bool :=
  match s with
  | [] => false
  | _ => forallb isnumeric_char s
  end.

(** The decimal value of a code point of category [Nd]. *)
Definition decimal_value (c : Z) : option Z :=
  match find (fun r => (fst r <=? c) && (c <=? snd r)) DECIMAL_RANGES with
  | Some r => Some ((c - fst r) mod 10)
  | None => None
  end.

(** The characters ['0'] to ['9']. *)
Definition is_ascii_digit (c : Z) : bool := (48 <=? c) && (c <=? 57).

(** [str(n)] for an integer. *)
Definition of_int (n : Z) : str :=
  lit (DecimalString.NilZero.string_of_int (Z.to_int n)).

(** [sep.join(l)] *)
Fixpoint join (sep : str) (l : list str) : str :=
  match l with
  | [] => []
  | [s] => s
  | s :: l' => s ++ sep ++ join sep l'
  end.

End PyStr.

(** ** Exceptions *)

Inductive exn : Type :=
| ValueError (msg : str)
| OverflowError (msg : str).

Inductive result (A : Type) : Type :=
| Ok (a : A)
| Raise (e : exn).

Arguments Ok {A} a.
Arguments Raise {A} e.

Definition bind {A B : Type} (r : result A) (k : A -> result B) : result B :=
  match r with
  | Ok a => k a
  | Raise e => Raise e
  end.

Notation "'try!' x := r 'in' k" := (bind r (fun x => k))
  (at level 10, x name, r at level 100, k at level 200).

(** ** The [datetime] module: calendar arithmetic *)

Module Datetime.

Definition MINYEAR : Z := 1.
Definition MAXYEAR : Z := 9999.
Definition MAXORDINAL : Z := 3652059.

Definition DAYS_IN_MONTH : list Z :=
  [-1; 31; 28; 31; 30; 31; 30; 31; 31; 30; 31; 30; 31].

(** Built by the running sum over [DAYS_IN_MONTH[1:]]. *)
Definition DAYS_BEFORE_MONTH : list Z :=
  -1 :: fst (fold_left (fun acc dim => (fst acc ++ [snd acc], snd acc + dim))
                       (tl DAYS_IN_MONTH) ([], 0)).

(** Table lookup; every call site has its index inside the table. *)
Definition item (tbl : list Z) (i : Z) : Z := nth (Z.to_nat i) tbl 0.

Definition is_leap (year : Z) : bool :=
  (year mod 4 =? 0) && (negb (year mod 100 =? 0) || (year mod 400 =? 0)).

Definition days_before_year (year : Z) : Z :=
  let y := year - 1 in
  y * 365 + y / 4 - y / 100 + y / 400.

Definition days_in_month (year month : Z) : Z :=
  if (month =? 2) && is_leap year then 29 else item DAYS_IN_MONTH month.

Definition days_before_month (year month : Z) : Z :=
  item DAYS_BEFORE_MONTH month + (if (2 <? month) && is_leap year then 1 else 0).

Definition ymd2ord (year month day : Z) : Z :=
  days_before_year year + days_before_month year month + day.

Definition DI400Y : Z := days_before_year 401.
Definition DI100Y : Z := days_before_year 101.
Definition DI4Y : Z := days_before_year 5.

Definition ord2ymd (n : Z) : Z * Z * Z :=
  let n := n - 1 in
  let n400 := n / DI400Y in
  let n := n mod DI400Y in
  let year := n400 * 400 + 1 in
  let n100 := n / DI100Y in
  let n := n mod DI100Y in
  let n4 := n / DI4Y in
  let n := n mod DI4Y in
  let n1 := n / 365 in
  let n := n mod 365 in
  let year := year + (n100 * 100 + n4 * 4 + n1) in
  if (n1 =? 4) || (n100 =? 4) then (year - 1, 12, 31)
  else
    let leapyear := (n1 =? 3) && (negb (n4 =? 24) || (n100 =? 3)) in
    let month := Z.shiftr (n + 50) 5 in
    let preceding :=
      item DAYS_BEFORE_MONTH month + (if (2 <? month) && leapyear then 1 else 0) in
    if n <? preceding then
      let month := month - 1 in
      let preceding :=
        preceding - (item DAYS_IN_MONTH month
                     + (if (month =? 2) && leapyear then 1 else 0)) in
      (year, month, n - preceding + 1)
    else (year, month, n - preceding + 1).

(** *** [date] objects *)

Record date : Type := mkdate { year : Z; month : Z; day : Z }.

(** The constructor [date(year, month, day)] with its field checks. *)
Definition date_new (y m d : Z) : result date :=
  if negb ((MINYEAR <=? y) && (y <=? MAXYEAR)) then
    Raise (ValueError (PyStr.lit "year " ++ PyStr.of_int y ++ PyStr.lit " is out of range"))
  else if negb ((1 <=? m) && (m <=? 12)) then
    Raise (ValueError (PyStr.lit "month must be in 1..12"))
  else if negb ((1 <=? d) && (d <=? days_in_month y m)) then
    Raise (ValueError (PyStr.lit "day is out of range for month"))
  else Ok (mkdate y m d).

(** The dates that the constructor accepts. *)
Definition valid_date (d : date) : bool :=
  (MINYEAR <=? year d) && (year d <=? MAXYEAR)
  && (1 <=? month d) && (month d <=? 12)
  && (1 <=? day d) && (day d <=? days_in_month (year d) (month d)).

Definition toordinal (d : date) : Z := ymd2ord (year d) (month d) (day d).

Definition fromordinal (n : Z) : result date :=
  let '(y, m, d) := ord2ymd n in date_new y m d.

(** [d.replace(year=y)] *)
Definition replace_year (d : date) (y : Z) : result date :=
  date_new y (month d) (day d).

(** [a < b]: comparison of the triples (year, month, day). *)
Definition date_ltb (a b : date) : bool :=
  (year a <? year b)
  || ((year a =? year b)
      && ((month a <? month b) || ((month a =? month b) && (day a <? day b)))).

(** [(a - b).days] *)
Definition days_between (a b : date) : Z := toordinal a - toordinal b.

(** [d + timedelta(days=days)] *)
Definition date_add (d : date) (days : Z) : result date :=
  let o := toordinal d + days in
  if (0 <? o) && (o <=? MAXORDINAL) then fromordinal o
  else Raise (OverflowError (PyStr.lit "date value out of range")).

(** [d.weekday()]: Monday is 0, Sunday is 6. *)
Definition weekday (d : date) : Z := (toordinal d + 6) mod 7.

(** *** [datetime] objects *)

Record datetime : Type := mkdatetime {
  date_of : date;   (* [dt.date()] *)
  hour : Z;
  minute : Z;
  second : Z;
  microsecond : Z
}.

(** *** Formatting *)

Definition ord (a : ascii) : Z := Z.of_N (N_of_ascii a).

(** Left padding with ['0'] up to [width] characters, as [%02d] and
    [%04d] do for a non-negative integer. *)
Definition zfill (width : nat) (s : str) : str :=
  repeat (ord "0") (width - length s) ++ s.

Definition fmt02 (n : Z) : str := zfill 2 (PyStr.of_int n).
Definition fmt04 (n : Z) : str := zfill 4 (PyStr.of_int n).
Definition fmt06 (n : Z) : str := zfill 6 (PyStr.of_int n).

(** The year as the C library prints it for [%Y]: in decimal, without
    padding (glibc).  From the year 1000 on these are the four digits that
    every platform prints; an earlier year comes out shorter. *)
Definition fmt_year (n : Z) : str := PyStr.of_int n.

(** A format string is a sequence of directives [%c] and literal
    characters. *)
Inductive token : Type :=
| Dir (c : Z)
| Lit (c : Z).

Fixpoint tokens (fmt : str) : list token :=
  match fmt with
  | [] => []
  | c :: rest =>
      if c =? ord "%" then
        match rest with
        | d :: rest' => Dir d :: tokens rest'
        | [] => [Lit c]
        end
      else Lit c :: tokens rest
  end.

(** [d.strftime(fmt)] for the directives [%d], [%m] and [%Y]; any other
    directive is left as it is written.  Day and month are printed on two
    digits, the year by [fmt_year]. *)
Definition strftime_token (d : date) (t : token) : str :=
  match t with
  | Lit c => [c]
  | Dir c =>
      if c =? ord "d" then fmt02 (day d)
      else if c =? ord "m" then fmt02 (month d)
      else if c =? ord "Y" then fmt_year (year d)
      else [ord "%"; c]
  end.

Definition strftime (d : date) (fmt : str) : str :=
  concat (map (strftime_token d) (tokens fmt)).

Definition format_time (hh mm ss us : Z) : str :=
  fmt02 hh ++ [ord ":"] ++ fmt02 mm ++ [ord ":"] ++ fmt02 ss
  ++ (if us =? 0 then [] else [ord "."] ++ fmt06 us).

(** [dt.isoformat(sep)] of a naive datetime. *)
Definition isoformat (dt : datetime) (sep : Z) : str :=
  fmt04 (year (date_of dt)) ++ [ord "-"] ++ fmt02 (month (date_of dt))
  ++ [ord "-"] ++ fmt02 (day (date_of dt)) ++ [sep]
  ++ format_time (hour dt) (minute dt) (second dt) (microsecond dt).

(** [str(dt)] *)
Definition datetime_str (dt : datetime) : str := isoformat dt (ord " ").

(** *** Parsing: [datetime.strptime] *)

(** The fragment of regular expressions that the directive patterns use.
    [Dig] is the class [\d], which on [str] patterns matches every
    Unicode decimal digit. *)
Inductive regex : Type :=
| Chr (c : Z)
| Rng (lo hi : Z)
| Dig
| Seq (a b : regex)
| Alt (a b : regex).

(** A match is the text it consumed and the suffix left after it. *)
Definition rchar (p : Z -> bool) (s : str) : list (str * str) :=
  match s with
  | x :: t => if p x then [([x], t)] else []
  | [] => []
  end.

(** All ways to match [r] at the head of [s], in the order a backtracking
    matcher tries them (left alternative first). *)
Fixpoint rmatch (r : regex) (s : str) : list (str * str) :=
  match r with
  | Chr c => rchar (fun x => x =? c) s
  | Rng lo hi => rchar (fun x => (lo <=? x) && (x <=? hi)) s
  | Dig => rchar PyStr.isdecimal_char s
  | Seq a b =>
      flat_map (fun m1 => map (fun m2 => (fst m1 ++ fst m2, snd m2))
                              (rmatch b (snd m1)))
               (rmatch a s)
  | Alt a b => rmatch a s ++ rmatch b s
  end.

Definition alts (l : list regex) (last : regex) : regex :=
  fold_right Alt last l.

(** [3[0-1]|[1-2]\d|0[1-9]|[1-9]| [1-9]] *)
Definition RE_d : regex :=
  alts [Seq (Chr (ord "3")) (Rng (ord "0") (ord "1"));
        Seq (Rng (ord "1") (ord "2")) Dig;
        Seq (Chr (ord "0")) (Rng (ord "1") (ord "9"));
        Rng (ord "1") (ord "9")]
       (Seq (Chr (ord " ")) (Rng (ord "1") (ord "9"))).

(** [1[0-2]|0[1-9]|[1-9]] *)
Definition RE_m : regex :=
  alts [Seq (Chr (ord "1")) (Rng (ord "0") (ord "2"));
        Seq (Chr (ord "0")) (Rng (ord "1") (ord "9"))]
       (Rng (ord "1") (ord "9")).

(** [\d\d\d\d] *)
Definition RE_Y : regex := Seq Dig (Seq Dig (Seq Dig Dig)).

Definition directive_regex (c : Z) : option regex :=
  if c =? ord "d" then Some RE_d
  else if c =? ord "m" then Some RE_m
  else if c =? ord "Y" then Some RE_Y
  else None.

(** The matches of a whole format at the head of [s]: the text captured by
    each directive and the unconsumed suffix, in matching order.  Literal
    characters other than white space stand for themselves. *)
Fixpoint match_format (toks : list token) (s : str) : list (list (Z * str) * str) :=
  match toks with
  | [] => [([], s)]
  | Lit c :: ts =>
      flat_map (fun m => match_format ts (snd m)) (rchar (fun x => x =? c) s)
  | Dir c :: ts =>
      match directive_regex c with
      | Some r =>
          flat_map
            (fun m => map (fun e => ((c, fst m) :: fst e, snd e))
                          (match_format ts (snd m)))
            (rmatch r s)
      | None => []
      end
  end.

Definition WHITESPACE_RANGES : list (Z * Z) :=
  [(9, 13); (28, 32); (133, 133); (160, 160); (5760, 5760); (8192, 8202);
   (8232, 8233); (8239, 8239); (8287, 8287); (12288, 12288)].

Definition isspace_char (c : Z) : bool := PyStr.in_ranges WHITESPACE_RANGES c.

Fixpoint lstrip (s : str) : str :=
  match s with
  | c :: t => if isspace_char c then lstrip t else s
  | [] => []
  end.

Definition strip (s : str) : str := rev (lstrip (rev (lstrip s))).

Fixpoint int_digits (acc : Z) (s : str) : option Z :=
  match s with
  | [] => Some acc
  | c :: t =>
      match PyStr.decimal_value c with
      | Some v => int_digits (acc * 10 + v) t
      | None => None
      end
  end.

(** [int(s)] on an unsigned decimal literal, white space around it
    allowed; [None] stands for the [ValueError] on any other text. *)
Definition int (s : str) : option Z :=
  match strip s with
  | [] => None
  | t => int_digits 0 t
  end.

Definition captured (c : Z) (env : list (Z * str)) : option str :=
  snd <$> find (fun kv => fst kv =? c) env.

(** [datetime.strptime(data, fmt)].  [None] stands for a [ValueError]
    (no match, unconverted data, or field values that are no date); the
    caller in this program replaces its message. *)
Definition strptime (data fmt : str) : option datetime :=
  match match_format (tokens fmt) data with
  | [] => None
  | (env, rest) :: _ =>
      match rest with
      | _ :: _ => None
      | [] =>
          m ← default (Some 1) (int <$> captured (ord "m") env);
          d ← default (Some 1) (int <$> captured (ord "d") env);
          y ← match captured (ord "Y") env with
               | Some t => int t
               | None => if (m =? 2) && (d =? 29) then None else Some 1900
               end;
          match date_new y m d with
          | Ok dd => Some (mkdatetime dd 0 0 0 0)
          | Raise _ => None
          end
      end
  end.

End Datetime.

(** ** [address_book.py] *)

Import Datetime.

Definition DATE_FORMAT : str := PyStr.lit "%d.%m.%Y".
Definition DAYS_IN_WEEK : Z := 7.
Definition WEEKEND_DAYS : list Z := [5; 6].

(** *** class [Field] and its subclasses *)

(** [str(x)] for the values that a field wraps. *)
Class PyStrOf (A : Type) : Type := py_str : A -> str.

#[export] Instance str_PyStrOf : PyStrOf str := fun s => s.
#[export] Instance datetime_PyStrOf : PyStrOf datetime := datetime_str.

Record Field (A : Type) : Type := mkField { value : A }.

Arguments mkField {A} value.
Arguments value {A} f.

(** [Field.__str__], inherited unchanged by [Name], [Phone] and
    [Birthday]. *)
Definition Field_str {A : Type} `{PyStrOf A} (self : Field A) : str :=
  py_str (value self).

Abbreviation Name := (Field str).
Abbreviation Phone := (Field str).
Abbreviation Birthday := (Field datetime).

Definition INVALID_DATE_MSG : str := PyStr.lit "Invalid date format. Use DD.MM.YYYY".

(** [Birthday.__init__] *)
Definition Birthday_init (v : str) : result Birthday :=
  match strptime v DATE_FORMAT with
  | Some dt => Ok (mkField dt)
  | None => Raise (ValueError INVALID_DATE_MSG)
  end.

(** *** class [Record]

    [Record] is a reserved word of the vernacular; the class is the type
    [ContactRecord] here. *)

Record ContactRecord : Type := mkRecord {
  name : Name;
  phones : list Phone;
  birthday : option Birthday
}.

(** [Record.__init__] *)
Definition Record_init (nm : str) (bd : option Birthday) : ContactRecord :=
  mkRecord (mkField nm) [] bd.

Definition set_phones (self : ContactRecord) (ps : list Phone) : ContactRecord :=
  mkRecord (name self) ps (birthday self).

Definition set_birthday (self : ContactRecord) (bd : option Birthday) : ContactRecord :=
  mkRecord (name self) (phones self) bd.

Definition is_phone_valid (phone : str) : bool :=
  (PyStr.len phone =? 10) && PyStr.isnumeric phone.

Definition ADDED_MSG : str := PyStr.lit "The phone is added successfully".

Definition not_added_msg (phone : str) : str :=
  PyStr.lit "Phone " ++ phone
  ++ PyStr.lit " was not added, it should be 10 digits long and numeric".

(** [Record.add_phone]: the record after the call and the returned
    message.  The message is chosen by the truth value of [self.phones]
    after the conditional append. *)
Definition add_phone (self : ContactRecord) (phone : str) : ContactRecord * str :=
  let self' :=
    if is_phone_valid phone then set_phones self (phones self ++ [mkField phone])
    else self in
  match phones self' with
  | _ :: _ => (self', ADDED_MSG)
  | [] => (self', not_added_msg phone)
  end.

(** The loop [for index, p in enumerate(self.phones): if p.value == v: ...; break]
    acts on the first index whose phone has the value [v]. *)
Definition first_phone (v : str) (ps : list Phone) : option (nat * Phone) :=
  list_find (fun p : Phone => value p = v) ps.

(** [Record.remove_phone] *)
Definition remove_phone (self : ContactRecord) (phone : str) : ContactRecord :=
  match first_phone phone (phones self) with
  | Some (index, _) => set_phones self (delete index (phones self))
  | None => self
  end.

(** [Record.edit_phone] *)
Definition edit_phone (self : ContactRecord) (old_value new_value : str) : ContactRecord :=
  if is_phone_valid new_value then
    match first_phone old_value (phones self) with
    | Some (index, _) => set_phones self (<[index := mkField new_value]> (phones self))
    | None => self
    end
  else self.

(** [Record.find_phone] *)
Definition find_phone (self : ContactRecord) (phone : str) : option Phone :=
  snd <$> first_phone phone (phones self).

Definition BIRTHDAY_ADDED_MSG : str := PyStr.lit "Birthday is added successfully".

(** [Record.add_birthday]: only a [ValueError] is caught, and [f"{err}"]
    is its message. *)
Definition add_birthday (self : ContactRecord) (bd : str) : result (ContactRecord * str) :=
  match Birthday_init bd with
  | Ok b => Ok (set_birthday self (Some b), BIRTHDAY_ADDED_MSG)
  | Raise (ValueError msg) => Ok (self, msg)
  | Raise e => Raise e
  end.

(** [Record.__str__] *)
Definition Record_str (self : ContactRecord) : str :=
  PyStr.lit "Contact name: " ++ value (name self) ++ PyStr.lit ", phones: "
  ++ PyStr.join (PyStr.lit "; ") (map value (phones self)).

(** *** class [AddressBook] *)

(** [self.data] is a [dict]: at most one entry per key, iterated in
    insertion order.  It is modelled as an association list; a key that is
    assigned again keeps its position. *)
Module AddressBook.

Abbreviation t := (list (str * ContactRecord)).

Definition empty : t := [].

Definition keys (self : t) : list str := map fst self.

(** The dictionaries: association lists without a repeated key. *)
Definition wf (self : t) : Prop := NoDup (keys self).

(** [d.get(k)] *)
Fixpoint dict_get (self : t) (k : str) : option ContactRecord :=
  match self with
  | [] => None
  | (k', v) :: rest => if PyStr.eqb k' k then Some v else dict_get rest k
  end.

(** [d.update({k: v})] *)
Fixpoint dict_set (self : t) (k : str) (v : ContactRecord) : t :=
  match self with
  | [] => [(k, v)]
  | (k', v') :: rest =>
      if PyStr.eqb k' k then (k', v) :: rest else (k', v') :: dict_set rest k v
  end.

(** [d.pop(k)] for a key that is present, without the popped value. *)
Fixpoint dict_pop (self : t) (k : str) : t :=
  match self with
  | [] => []
  | (k', v') :: rest =>
      if PyStr.eqb k' k then rest else (k', v') :: dict_pop rest k
  end.

(** [k in d] *)
Definition contains (self : t) (k : str) : bool :=
  existsb (fun kv => PyStr.eqb (fst kv) k) self.

Definition add_record (self : t) (record : ContactRecord) : t :=
  dict_set self (value (name record)) record.

Definition find (self : t) (nm : str) : option ContactRecord :=
  dict_get self nm.

Definition delete (self : t) (nm : str) : t :=
  if contains self nm then dict_pop self nm else self.

(** [AddressBook.adjust_for_weekend] *)
Definition adjust_for_weekend (d : date) : result date :=
  if existsb (Z.eqb (weekday d)) WEEKEND_DAYS then
    date_add d (DAYS_IN_WEEK - weekday d)
  else Ok d.

(** One element of the list that [get_upcoming_birthdays] returns: the
    dictionary with the keys ["name"] and ["congratulation_date"]. *)
Record greeting : Type := mkGreeting {
  greeting_name : str;
  congratulation_date : str
}.

(** The date compared with [today]: the birthday moved into the year of
    [today], and into the following year when that date is already past. *)
Definition birthday_this_year (today : date) (b : Birthday) : result date :=
  try! this_year := replace_year (date_of (value b)) (year today) in
  if date_ltb this_year today then replace_year this_year (year today + 1)
  else Ok this_year.

(** The body of the loop of [get_upcoming_birthdays] for one contact:
    [None] where the loop continues without appending.  The value of a
    [Birthday] is always a [datetime], so the [isinstance] branch of the
    source is never taken. *)
Definition upcoming_step (today : date) (contact : ContactRecord)
  : result (option greeting) :=
  match birthday contact with
  | None => Ok None
  | Some b =>
      try! candidate := birthday_this_year today b in
      let delta_days := days_between candidate today in
      if negb ((0 <=? delta_days) && (delta_days <=? 7)) then Ok None
      else
        try! congratulation := adjust_for_weekend candidate in
        Ok (Some (mkGreeting (value (name contact))
                             (strftime congratulation DATE_FORMAT)))
  end.

(** The [for] loop of [get_upcoming_birthdays] over the entries of
    [self.data], with the list [upcoming_birthdays] built so far. *)
Fixpoint upcoming_loop (today : date) (contacts : t) (upcoming_birthdays : list greeting)
  : result (list greeting) :=
  match contacts with
  | [] => Ok upcoming_birthdays
  | (_, contact) :: rest =>
      try! g := upcoming_step today contact in
      upcoming_loop today rest
        (match g with
         | Some x => upcoming_birthdays ++ [x]
         | None => upcoming_birthdays
         end)
  end.

(** [AddressBook.get_upcoming_birthdays], with the current date
    [datetime.today().date()] as the parameter [today]. *)
Definition get_upcoming_birthdays (today : date) (self : t) : result (list greeting) :=
  upcoming_loop today self [].

End AddressBook.

(** ** The phone format of the specification *)

(** The specification's words for a valid phone: exactly ten characters,
    each of them a decimal digit ['0'] to ['9']. *)
Definition ten_decimal_digits (p : str) : bool :=
  (PyStr.len p =? 10) && forallb PyStr.is_ascii_digit p.

(** Ten times the character U+00BD (vulgar fraction one half): numeric for
    [str.isnumeric], and no digit. *)
Definition ten_halves : str := repeat 189 10.

(** The invariant that the operations do keep: every stored phone passed
    [is_phone_valid]. *)
Definition phones_checked (self : ContactRecord) : Prop :=
  Forall (fun p : Phone => is_phone_valid (value p) = true) (phones self).

(** ** Sample values *)

Definition ann : ContactRecord := Record_init (PyStr.lit "Ann") None.

Definition ann_with_phone : ContactRecord :=
  fst (add_phone ann (PyStr.lit "1234567890")).

(** The record of [test_record] after each of its calls. *)
Definition john0 : ContactRecord := Record_init (PyStr.lit "John Doe") None.
Definition john1 : ContactRecord := fst (add_phone john0 (PyStr.lit "1234567890")).
Definition john2 : ContactRecord := remove_phone john1 (PyStr.lit "1234567890").
Definition john3 : ContactRecord := fst (add_phone john2 (PyStr.lit "1234567890")).
Definition john4 : ContactRecord :=
  edit_phone john3 (PyStr.lit "1234567890") (PyStr.lit "0987654321").


(** The number of entries stored under a key. *)
Definition entries_under (self : AddressBook.t) (k : str) : nat :=
  length (List.filter (fun kv => PyStr.eqb (fst kv) k) self).

(** A record named [nm] whose birthday is the date [d]. *)
Definition born (nm : string) (d : date) : ContactRecord :=
  Record_init (PyStr.lit nm) (Some (mkField (mkdatetime d 0 0 0 0))).

(** Monday, 10 June 2024. *)
Definition monday_10_06_2024 : date := mkdate 2024 6 10.

Definition sam : ContactRecord := born "Sam" (mkdate 1900 6 15).
Definition lea : ContactRecord := born "Lea" (mkdate 1980 6 18).
Definition mia : ContactRecord := born "Mia" (mkdate 1980 6 17).
Definition feb : ContactRecord := born "Feb" (mkdate 2000 2 29).

Definition sample_book : AddressBook.t :=
  AddressBook.add_record
    (AddressBook.add_record (AddressBook.add_record AddressBook.empty sam) lea) mia.

(** What [fromordinal] needs of [ord2ymd] at the ordinal [n]: a month
    and a day that the constructor accepts, and [n] back from [ymd2ord]. *)
Definition ordinal_checks (n : Z) : bool :=
  let '(y, m, d) := ord2ymd n in
  (1 <=? y) && (1 <=? m) && (m <=? 12) && (1 <=? d) && (d <=? days_in_month y m)
  && (ymd2ord y m d =? n).

(** [p] on the [len] integers from [lo] on. *)
Fixpoint all_from (p : Z -> bool) (lo : Z) (len : nat) : bool :=
  match len with
  | O => true
  | S len' => p lo && all_from p (lo + 1) len'
  end.

(** ** Sequences of calls *)

(** The calls that change a record. *)
Inductive record_call : Type :=
| Call_add_phone (phone : str)
| Call_remove_phone (phone : str)
| Call_edit_phone (old_value new_value : str)
| Call_add_birthday (birthday : str).

Definition record_step (self : ContactRecord) (c : record_call) : ContactRecord :=
  match c with
  | Call_add_phone p => fst (add_phone self p)
  | Call_remove_phone p => remove_phone self p
  | Call_edit_phone o n => edit_phone self o n
  | Call_add_birthday v =>
      match add_birthday self v with
      | Ok r => fst r
      | Raise _ => self
      end
  end.

(** The record after the calls [cs], made one after the other. *)
Definition record_after (self : ContactRecord) (cs : list record_call) : ContactRecord :=
  fold_left record_step cs self.

(** The calls that change a ledger. *)
Inductive ledger_call : Type :=
| Call_add_record (record : ContactRecord)
| Call_delete (nm : str).

Definition ledger_step (self : AddressBook.t) (c : ledger_call) : AddressBook.t :=
  match c with
  | Call_add_record r => AddressBook.add_record self r
  | Call_delete nm => AddressBook.delete self nm
  end.

Definition ledger_after (self : AddressBook.t) (cs : list ledger_call) : AddressBook.t :=
  fold_left ledger_step cs self.

(** The name under which [get_upcoming_birthdays] reports an entry. *)
Definition entry_name (kv : str * ContactRecord) : str := value (name (snd kv)).

Definition has_birthday (kv : str * ContactRecord) : bool :=
  match birthday (snd kv) with
  | Some _ => true
  | None => false
  end.

(** Saturday or Sunday, by the ordinal of the day. *)
Definition weekend_ordinal (o : Z) : bool :=
  existsb (Z.eqb ((o + 6) mod 7)) WEEKEND_DAYS.

(** ** [cli_bot_v4.py] *)

Module Bot.

(** The exceptions of the handlers: those of the ledger and the ones that
    unpacking, attribute access on [None] and the decorator name. *)
Inductive error : Type :=
| Std (e : exn)
| AttributeError (msg : str)
| IndexError (msg : str)
| KeyError (msg : str).

Inductive outcome (A : Type) : Type :=
| Return (a : A)
| Throw (e : error).

Arguments Return {A} a.
Arguments Throw {A} e.

Definition and_then {A B : Type} (r : outcome A) (k : A -> outcome B) : outcome B :=
  match r with
  | Return a => k a
  | Throw e => Throw e
  end.

(** What a handler returns and [main] prints: a text, the list of
    [show_phone], the dictionary of [show_all], the birthday object (or
    [None]) of [show_birthday], the list of [birthdays]. *)
Inductive reply : Type :=
| Text (s : str)
| PhoneList (l : list str)
| PhoneTable (l : list (str * list str))
| BirthdayOf (b : option Birthday)
| Upcoming (l : list AddressBook.greeting).

Definition not_enough (expected : string) (got : nat) : error :=
  Std (ValueError (PyStr.lit "not enough values to unpack (expected " ++ PyStr.lit expected
                   ++ PyStr.lit ", got " ++ PyStr.of_int (Z.of_nat got) ++ PyStr.lit ")")).

Definition too_many (expected : string) : error :=
  Std (ValueError (PyStr.lit "too many values to unpack (expected " ++ PyStr.lit expected
                   ++ PyStr.lit ")")).

(** [a, b = args] *)
Definition unpack2 (args : list str) : outcome (str * str) :=
  match args with
  | [a; b] => Return (a, b)
  | _ :: _ :: _ :: _ => Throw (too_many "2")
  | _ => Throw (not_enough "2" (length args))
  end.

(** [a, b, c = args] *)
Definition unpack3 (args : list str) : outcome (str * str * str) :=
  match args with
  | [a; b; c] => Return (a, b, c)
  | _ :: _ :: _ :: _ :: _ => Throw (too_many "3")
  | _ => Throw (not_enough "3" (length args))
  end.

(** [a, *_ = args] *)
Definition unpack_first (args : list str) : outcome str :=
  match args with
  | a :: _ => Return a
  | [] => Throw (not_enough "at least 1" 0)
  end.

Definition NAME_AND_PHONE_MSG : str := PyStr.lit "Give me your name and phone please.".
Definition TOO_MANY_NAMES_MSG : str :=
  PyStr.lit "To many names, try the command 'all' to investigate.".
Definition CORRECT_NAME_MSG : str :=
  PyStr.lit "Give me the correct name please, try the command 'all' to investigate.".

(** The decorator [input_error] around a call that started with the ledger
    [book]: the three caught exceptions become a text, any other exception
    passes.  No handler changes the ledger before it raises, so the ledger
    after a caught exception is [book]. *)
Definition input_error (book : AddressBook.t) (r : outcome (AddressBook.t * reply))
  : outcome (AddressBook.t * reply) :=
  match r with
  | Return x => Return x
  | Throw (Std (ValueError _)) => Return (book, Text NAME_AND_PHONE_MSG)
  | Throw (IndexError _) => Return (book, Text TOO_MANY_NAMES_MSG)
  | Throw (KeyError _) => Return (book, Text CORRECT_NAME_MSG)
  | Throw e => Throw e
  end.

(** The handlers take the ledger and return the ledger after the call with
    their result.  A record is reached only through the entry of its name
    ([add_contact] builds a fresh record for each entry), so a method
    called on the record that [find] returns changes that entry. *)

Definition add_contact_func (args : list str) (contacts : AddressBook.t)
  : outcome (AddressBook.t * reply) :=
  and_then (unpack2 args) (fun '(nm, phone) =>
    let rec := Record_init nm None in
    let rec := fst (add_phone rec phone) in
    Return (AddressBook.add_record contacts rec, Text (PyStr.lit "Contact added."))).

Definition add_contact (args : list str) (contacts : AddressBook.t)
  : outcome (AddressBook.t * reply) :=
  input_error contacts (add_contact_func args contacts).

Definition NONE_HAS_NO (attr : string) : error :=
  AttributeError (PyStr.lit "'NoneType' object has no attribute '" ++ PyStr.lit attr
                  ++ PyStr.lit "'").

Definition change_contact_func (args : list str) (book : AddressBook.t)
  : outcome (AddressBook.t * reply) :=
  and_then (unpack3 args) (fun '(nm, old_phone, phone) =>
    match book with
    | _ :: _ =>
        if AddressBook.contains book nm then
          match AddressBook.find book nm with
          | Some rec =>
              Return (AddressBook.dict_set book nm (edit_phone rec old_phone phone),
                      Text (PyStr.lit "Contact updated."))
          | None => Throw (NONE_HAS_NO "edit_phone")
          end
        else Return (book, Text (PyStr.lit "Contact not found."))
    | [] => Return (book, Text (PyStr.lit "Contact not found."))
    end).

Definition change_contact (args : list str) (book : AddressBook.t)
  : outcome (AddressBook.t * reply) :=
  input_error book (change_contact_func args book).

(** [show_phone] is not decorated. *)
Definition show_phone (args : list str) (book : AddressBook.t) : outcome (list str) :=
  and_then (unpack_first args) (fun nm =>
    if AddressBook.contains book nm then
      match AddressBook.find book nm with
      | Some rec => Return (map value (phones rec))
      | None => Return []
      end
    else Return []).

(** [show_all]: the dictionary comprehension over the names of the ledger;
    [show_phone] with the one-name tuple does not raise. *)
Definition show_all (book : AddressBook.t) : list (str * list str) :=
  map (fun nm => (nm, match show_phone [nm] book with
                      | Return l => l
                      | Throw _ => []
                      end))
      (AddressBook.keys book).

(** [record.birthday == birthday] in [add_birthday]: a [Birthday] object or
    [None] against a [str].  Neither class defines an equality with the
    other, the comparison falls back to identity and is false. *)
Definition birthday_eq_text (b : option Birthday) (text : str) : bool := false.

Definition add_birthday_func (args : list str) (contacts : AddressBook.t)
  : outcome (AddressBook.t * reply) :=
  and_then (unpack2 args) (fun '(nm, bd) =>
    match AddressBook.find contacts nm with
    | None => Throw (NONE_HAS_NO "add_birthday")
    | Some record =>
        match add_birthday record bd with
        | Raise e => Throw (Std e)
        | Ok (record', _) =>
            let contacts' := AddressBook.dict_set contacts nm record' in
            if birthday_eq_text (birthday record') bd
            then Return (contacts', Text (PyStr.lit "Contact updated."))
            else Return (contacts', Text (PyStr.lit "Contact is not updated"))
        end
    end).

Definition add_birthday (args : list str) (contacts : AddressBook.t)
  : outcome (AddressBook.t * reply) :=
  input_error contacts (add_birthday_func args contacts).

Definition show_birthday_func (args : list str) (book : AddressBook.t)
  : outcome (AddressBook.t * reply) :=
  and_then (unpack_first args) (fun nm =>
    match AddressBook.find book nm with
    | None => Throw (NONE_HAS_NO "birthday")
    | Some rec => Return (book, BirthdayOf (birthday rec))
    end).

Definition show_birthday (args : list str) (book : AddressBook.t)
  : outcome (AddressBook.t * reply) :=
  input_error book (show_birthday_func args book).

Definition birthdays_func (today : date) (book : AddressBook.t)
  : outcome (AddressBook.t * reply) :=
  match AddressBook.get_upcoming_birthdays today book with
  | Ok l => Return (book, Upcoming l)
  | Raise e => Throw (Std e)
  end.

(** [birthdays], with the date that [get_upcoming_birthdays] reads from the
    clock. *)
Definition birthdays (today : date) (book : AddressBook.t)
  : outcome (AddressBook.t * reply) :=
  input_error book (birthdays_func today book).

(** [s.split()]: the maximal runs of characters that are no white space. *)
Fixpoint split_from (s : str) (word : str) : list str :=
  match s with
  | [] => match word with [] => [] | _ => [word] end
  | c :: t =>
      if isspace_char c then
        match word with
        | [] => split_from t []
        | _ => word :: split_from t []
        end
      else split_from t (word ++ [c])
  end.

Definition split (s : str) : list str := split_from s [].

(** A text that [split] returns as one word: not empty and free of white
    space. *)
Definition is_word (w : str) : bool :=
  match w with
  | [] => false
  | _ => forallb (fun c => negb (isspace_char c)) w
  end.

Definition is_ascii (c : Z) : bool := (0 <=? c) && (c <? 128).

Definition ascii_lower (c : Z) : Z :=
  if (ord "A" <=? c) && (c <=? ord "Z") then c + 32 else c.

Section Lower.

(** [str.lower] on a string with a character outside ASCII follows the
    Unicode case tables and is left as a parameter. *)
Variable unicode_lower : str -> str.

(** [s.lower()] *)
Definition lower (s : str) : str :=
  if forallb is_ascii s then map ascii_lower s else unicode_lower s.

(** [parse_input]: the command and the list of its arguments. *)
Definition parse_input (user_input : str) : outcome (str * list str) :=
  match split user_input with
  | [] => Throw (not_enough "at least 1" 0)
  | cmd :: args => Return (lower (strip cmd), args)
  end.

Definition EXIT_COMMANDS : list str :=
  [PyStr.lit "close"; PyStr.lit "exit"; PyStr.lit "quit"; PyStr.lit "q"].

(** The lines on which [main] leaves its loop. *)
Definition is_exit_line (user_input : str) : bool :=
  match parse_input user_input with
  | Return (command, _) => existsb (PyStr.eqb (lower command)) EXIT_COMMANDS
  | Throw _ => false
  end.

(** What one turn of the loop of [main] does with a line. *)
Inductive turn : Type :=
| Continue (book : AddressBook.t) (printed : reply)
| Exit (saved : AddressBook.t) (printed : reply).

Definition printing (r : outcome (AddressBook.t * reply)) : outcome turn :=
  and_then r (fun x => Return (Continue (fst x) (snd x))).

(** The body of the loop of [main] on the line [user_input], read when the
    clock shows the date [today]. *)
Definition main_turn (today : date) (book : AddressBook.t) (user_input : str)
  : outcome turn :=
  and_then (parse_input user_input) (fun '(command, args) =>
    if existsb (PyStr.eqb (lower command)) EXIT_COMMANDS then
      Return (Exit book (Text (PyStr.lit "Good bye!")))
    else if PyStr.eqb command (PyStr.lit "hello") then
      Return (Continue book (Text (PyStr.lit "How can I help you?")))
    else if PyStr.eqb command (PyStr.lit "add") then
      printing (add_contact args book)
    else if PyStr.eqb command (PyStr.lit "change") then
      printing (change_contact args book)
    else if PyStr.eqb command (PyStr.lit "phone") then
      and_then (show_phone args book) (fun l => Return (Continue book (PhoneList l)))
    else if PyStr.eqb command (PyStr.lit "all") then
      Return (Continue book (PhoneTable (show_all book)))
    else if PyStr.eqb command (PyStr.lit "add-birthday") then
      printing (add_birthday args book)
    else if PyStr.eqb command (PyStr.lit "show-birthday") then
      printing (show_birthday args book)
    else if PyStr.eqb command (PyStr.lit "birthdays") then
      printing (birthdays today book)
    else Return (Continue book (Text (PyStr.lit "Invalid command.")))).

(** How a run of [main] ends: with the ledger written by [save_data], with
    an exception that no handler caught (nothing is written), or waiting
    for a line that does not come. *)
Inductive ending : Type :=
| Saved (book : AddressBook.t)
| Crashed (e : error)
| Waiting (book : AddressBook.t).

(** The loop of [main] from the ledger [book] over the lines [inputs], each
    with the date of the clock when it is handled: what [print] is called
    with, in order (the prompts of [input] are left out), and how the run
    ends. *)
Fixpoint main_loop (book : AddressBook.t) (inputs : list (date * str))
  : list reply * ending :=
  match inputs with
  | [] => ([], Waiting book)
  | (today, user_input) :: rest =>
      match main_turn today book user_input with
      | Throw e => ([], Crashed e)
      | Return (Exit saved printed) => ([printed], Saved saved)
      | Return (Continue book' printed) =>
          let '(out, fin) := main_loop book' rest in (printed :: out, fin)
      end
  end.

(** [load_data] on the content of the file, [None] when there is no file. *)
Definition load_data (file : option AddressBook.t) : AddressBook.t :=
  default AddressBook.empty file.

(** [main]: the ledger is loaded, the greeting printed and the loop run. *)
Definition main (file : option AddressBook.t) (inputs : list (date * str))
  : list reply * ending :=
  let '(out, fin) := main_loop (load_data file) inputs in
  (Text (PyStr.lit "Welcome to the assistant bot!") :: out, fin).

End Lower.

End Bot.

(** * Properties *)

Import AddressBook.

(** ** Strings *)

Lemma eqb_true (a b : str) : PyStr.eqb a b = true <-> a = b.
Proof. unfold PyStr.eqb. apply bool_decide_eq_true. Qed.

Lemma eqb_false (a b : str) : PyStr.eqb a b = false <-> a <> b.
Proof. unfold PyStr.eqb. apply bool_decide_eq_false. Qed.

Lemma eqb_refl (a : str) : PyStr.eqb a a = true.
Proof. now apply eqb_true. Qed.

Lemma ascii_digit_numeric (c : Z) :
  PyStr.is_ascii_digit c = true -> PyStr.isnumeric_char c = true.
Proof.
  unfold PyStr.is_ascii_digit. intros H.
  apply andb_true_iff in H as [Hlo Hhi].
  apply Z.leb_le in Hlo, Hhi.
  assert (Hc : c = 48 \/ c = 49 \/ c = 50 \/ c = 51 \/ c = 52 \/ c = 53
               \/ c = 54 \/ c = 55 \/ c = 56 \/ c = 57) by lia.
  repeat destruct Hc as [-> | Hc]; try subst c; reflexivity.
Qed.

Lemma ascii_digits_numeric (p : str) :
  forallb PyStr.is_ascii_digit p = true -> forallb PyStr.isnumeric_char p = true.
Proof.
  induction p as [|c p IH]; simpl; [reflexivity|].
  intros H. apply andb_true_iff in H as [Hc Hp].
  now rewrite (ascii_digit_numeric _ Hc), IH.
Qed.

(** Every phone in the specification's format passes the check of the
    code. *)
Lemma ten_decimal_digits_valid (p : str) :
  ten_decimal_digits p = true -> is_phone_valid p = true.
Proof.
  unfold ten_decimal_digits, is_phone_valid. intros H.
  apply andb_true_iff in H as [Hlen Hdig]. rewrite Hlen. simpl.
  destruct p as [|c p]; [discriminate Hlen|].
  unfold PyStr.isnumeric. now apply ascii_digits_numeric.
Qed.

(** The converse fails: the check of the code accepts more. *)
Lemma ten_halves_valid :
  is_phone_valid ten_halves = true /\ ten_decimal_digits ten_halves = false.
Proof. split; reflexivity. Qed.

(** ** The phones of a record *)

Lemma first_phone_Some (v : str) (ps : list Phone) (i : nat) (ph : Phone) :
  first_phone v ps = Some (i, ph) <->
  ps !! i = Some ph /\ value ph = v
  /\ forall (j : nat) (y : Phone), ps !! j = Some y -> (j < i)%nat -> value y <> v.
Proof.
  unfold first_phone.
  exact (list_find_Some (fun p : Phone => value p = v) ps i ph).
Qed.

Lemma first_phone_None (v : str) (ps : list Phone) :
  first_phone v ps = None <-> Forall (fun p : Phone => value p <> v) ps.
Proof.
  unfold first_phone.
  exact (list_find_None (fun p : Phone => value p = v) ps).
Qed.

Lemma first_phone_app_new (v : str) (ps : list Phone) :
  exists (i : nat) (ph : Phone),
    first_phone v (ps ++ [mkField v]) = Some (i, ph) /\ value ph = v.
Proof.
  unfold first_phone. induction ps as [|q ps IH]; simpl.
  - rewrite decide_True by reflexivity. now exists 0%nat, (mkField v).
  - destruct (decide (value q = v)) as [Hq|Hq].
    + now exists 0%nat, q.
    + destruct IH as (i & ph & Hfind & Hval). rewrite Hfind. simpl.
      now exists (S i), ph.
Qed.

Lemma remove_phone_first (self : ContactRecord) (v : str) (i : nat) (ph : Phone) :
  first_phone v (phones self) = Some (i, ph) ->
  remove_phone self v
  = set_phones self (take i (phones self) ++ drop (S i) (phones self)).
Proof.
  intros Hfind. unfold remove_phone. rewrite Hfind.
  now rewrite delete_take_drop.
Qed.

Lemma remove_phone_missing (self : ContactRecord) (v : str) :
  Forall (fun p : Phone => value p <> v) (phones self) ->
  remove_phone self v = self.
Proof.
  intros Hmiss. apply first_phone_None in Hmiss.
  unfold remove_phone. now rewrite Hmiss.
Qed.

(** A call with a value that the check rejects leaves the record as it
    was; what it reports depends on the phones already there. *)
Lemma add_phone_rejected (self : ContactRecord) (p : str) :
  is_phone_valid p = false ->
  fst (add_phone self p) = self
  /\ snd (add_phone self p)
     = (if bool_decide (phones self = []) then not_added_msg p else ADDED_MSG).
Proof.
  intros Hp. unfold add_phone. rewrite Hp.
  destruct (phones self) as [|q ps] eqn:Hps; simpl; auto.
Qed.

Lemma add_phone_accepted (self : ContactRecord) (p : str) :
  is_phone_valid p = true ->
  add_phone self p = (set_phones self (phones self ++ [mkField p]), ADDED_MSG).
Proof.
  intros Hp. unfold add_phone. rewrite Hp. simpl.
  destruct (phones self ++ [mkField p]) as [|q ps] eqn:Happ; [|reflexivity].
  now apply app_eq_nil in Happ as [_ ?].
Qed.

Lemma edit_phone_rejected (self : ContactRecord) (old new : str) :
  is_phone_valid new = false -> edit_phone self old new = self.
Proof. intros Hn. unfold edit_phone. now rewrite Hn. Qed.

Lemma edit_phone_first (self : ContactRecord) (old new : str) (i : nat) (ph : Phone) :
  is_phone_valid new = true ->
  first_phone old (phones self) = Some (i, ph) ->
  edit_phone self old new
  = set_phones self (take i (phones self) ++ mkField new :: drop (S i) (phones self)).
Proof.
  intros Hn Hfind. unfold edit_phone. rewrite Hn, Hfind.
  apply first_phone_Some in Hfind as (Hi & _ & _).
  apply lookup_lt_Some in Hi.
  now rewrite insert_take_drop.
Qed.

Lemma edit_phone_missing (self : ContactRecord) (old new : str) :
  Forall (fun p : Phone => value p <> old) (phones self) ->
  edit_phone self old new = self.
Proof.
  intros Hmiss. apply first_phone_None in Hmiss.
  unfold edit_phone. rewrite Hmiss. now destruct (is_phone_valid new).
Qed.

Lemma Record_init_checked (nm : str) (bd : option Birthday) :
  phones_checked (Record_init nm bd).
Proof. constructor. Qed.

Lemma add_phone_checked (self : ContactRecord) (p : str) :
  phones_checked self -> phones_checked (fst (add_phone self p)).
Proof.
  unfold phones_checked. intros Hinv.
  destruct (is_phone_valid p) eqn:Hp.
  - rewrite add_phone_accepted by assumption. simpl.
    apply Forall_app. split; [assumption|]. now repeat constructor.
  - now rewrite (proj1 (add_phone_rejected self p Hp)).
Qed.

Lemma remove_phone_checked (self : ContactRecord) (p : str) :
  phones_checked self -> phones_checked (remove_phone self p).
Proof.
  unfold phones_checked, remove_phone. intros Hinv.
  destruct (first_phone p (phones self)) as [[i ph]|]; [|assumption].
  simpl. now apply Forall_delete.
Qed.

Lemma edit_phone_checked (self : ContactRecord) (old new : str) :
  phones_checked self -> phones_checked (edit_phone self old new).
Proof.
  unfold phones_checked, edit_phone. intros Hinv.
  destruct (is_phone_valid new) eqn:Hn; [|assumption].
  destruct (first_phone old (phones self)) as [[i ph]|]; [|assumption].
  simpl. now apply Forall_insert.
Qed.

(** The assertions of [test_field] and [test_record] of the source, on
    the model. *)
Lemma source_tests :
  Field_str (mkField (PyStr.lit "Test Value")) = PyStr.lit "Test Value"
  /\ Record_str john0 = PyStr.lit "Contact name: John Doe, phones: "
  /\ In (PyStr.lit "1234567890") (map value (phones john1))
  /\ ~ In (PyStr.lit "1234567890") (map value (phones john2))
  /\ In (PyStr.lit "0987654321") (map value (phones john4))
  /\ find_phone john4 (PyStr.lit "1234567890") = None
  /\ (value <$> find_phone john4 (PyStr.lit "0987654321"))
     = Some (PyStr.lit "0987654321").
Proof.
  repeat split; try (vm_compute; reflexivity).
  - left. reflexivity.
  - intros [].
  - left. reflexivity.
Qed.

(** C1.  [add_phone] with a value that is not ten decimal digits does not
    report per call: on a record that already holds a phone the rejected
    value ["abc"] is answered with the success message (the phones stay as
    they were), while on a record without phones the same call reports the
    failure; and the value [ten_halves], no decimal digit in it, is
    appended. *)
Theorem add_phone_report_depends_on_prior_phones :
  ten_decimal_digits (PyStr.lit "abc") = false
  /\ add_phone ann_with_phone (PyStr.lit "abc") = (ann_with_phone, ADDED_MSG)
  /\ add_phone ann (PyStr.lit "abc") = (ann, not_added_msg (PyStr.lit "abc"))
  /\ ten_decimal_digits ten_halves = false
  /\ add_phone ann ten_halves = (set_phones ann [mkField ten_halves], ADDED_MSG).
Proof. repeat split. Qed.

(** C4.  [edit_phone] with a new value that is not ten decimal digits can
    change the phones: [ten_halves] passes [is_phone_valid] and replaces
    the phone ["1234567890"]. *)
Theorem edit_phone_accepts_non_decimal :
  ten_decimal_digits ten_halves = false
  /\ phones ann_with_phone = [mkField (PyStr.lit "1234567890")]
  /\ phones (edit_phone ann_with_phone (PyStr.lit "1234567890") ten_halves)
     = [mkField ten_halves].
Proof. repeat split. Qed.

(** C6.  The phones of a record are not always strings of ten decimal
    digits: starting from the constructor, one [add_phone] stores
    [ten_halves]. *)
Theorem add_phone_stores_non_decimal :
  phones ann = []
  /\ phones (fst (add_phone ann ten_halves)) = [mkField ten_halves]
  /\ Exists (fun p : Phone => ten_decimal_digits (value p) = false)
            (phones (fst (add_phone ann ten_halves))).
Proof. repeat split. now constructor. Qed.

(** C9.  After [add_phone p] with [p] of exactly ten decimal digits,
    [find_phone p] returns a stored phone whose value is [p]. *)
Theorem find_phone_after_add_phone (self : ContactRecord) (p : str) :
  ten_decimal_digits p = true ->
  exists ph : Phone,
    find_phone (fst (add_phone self p)) p = Some ph /\ value ph = p.
Proof.
  intros Hp. apply ten_decimal_digits_valid in Hp.
  rewrite add_phone_accepted by assumption. unfold find_phone. simpl.
  destruct (first_phone_app_new p (phones self)) as (i & ph & Hfind & Hval).
  exists ph. now rewrite Hfind.
Qed.

Lemma find_phone_after_add_phone_witness :
  ten_decimal_digits (PyStr.lit "1234567890") = true
  /\ exists ph : Phone,
       find_phone (fst (add_phone ann (PyStr.lit "1234567890")))
                  (PyStr.lit "1234567890") = Some ph
       /\ value ph = PyStr.lit "1234567890".
Proof.
  split; [reflexivity|].
  apply (find_phone_after_add_phone ann (PyStr.lit "1234567890")). reflexivity.
Defined.

(** ** The ledger *)

Lemma entries_under_absent (self : AddressBook.t) (k : str) :
  ~ In k (keys self) -> entries_under self k = 0%nat.
Proof.
  unfold entries_under, keys.
  induction self as [|[k' v'] rest IH]; simpl; [reflexivity|].
  intros Hnot. destruct (PyStr.eqb k' k) eqn:Hk.
  - apply eqb_true in Hk. tauto.
  - apply IH. tauto.
Qed.

Lemma keys_dict_set (self : AddressBook.t) (k : str) (v : ContactRecord) :
  keys (dict_set self k v) = if contains self k then keys self else keys self ++ [k].
Proof.
  unfold keys, contains.
  induction self as [|[k' v'] rest IH]; simpl; [reflexivity|].
  destruct (PyStr.eqb k' k) eqn:Hk; simpl; [reflexivity|].
  rewrite IH. now destruct (existsb _ rest).
Qed.

Lemma contains_In (self : AddressBook.t) (k : str) :
  contains self k = true <-> In k (keys self).
Proof.
  unfold contains, keys. rewrite existsb_exists, in_map_iff.
  split; intros ([k' v'] & H1 & H2); exists (k', v'); simpl in *.
  - split; [now apply eqb_true | assumption].
  - split; [assumption | now apply eqb_true].
Qed.

Lemma wf_dict_set (self : AddressBook.t) (k : str) (v : ContactRecord) :
  wf self -> wf (dict_set self k v).
Proof.
  unfold wf. intros Hwf. rewrite keys_dict_set.
  destruct (contains self k) eqn:Hk; [assumption|].
  apply NoDup_app. split; [assumption|]. split.
  - intros x Hx Hx'. apply list_elem_of_In in Hx.
    apply list_elem_of_In in Hx'. destruct Hx' as [<-|[]].
    apply contains_In in Hx. congruence.
  - apply NoDup_singleton.
Qed.

Lemma wf_add_record (self : AddressBook.t) (r : ContactRecord) :
  wf self -> wf (add_record self r).
Proof. apply wf_dict_set. Qed.

Lemma dict_get_set (self : AddressBook.t) (k : str) (v : ContactRecord) :
  dict_get (dict_set self k v) k = Some v.
Proof.
  induction self as [|[k' v'] rest IH]; simpl.
  - now rewrite eqb_refl.
  - destruct (PyStr.eqb k' k) eqn:Hk; simpl; now rewrite Hk.
Qed.

Lemma entries_under_dict_set (self : AddressBook.t) (k : str) (v : ContactRecord) :
  wf self -> entries_under (dict_set self k v) k = 1%nat.
Proof.
  unfold wf. induction self as [|[k' v'] rest IH]; simpl; intros Hwf.
  - unfold entries_under. simpl. now rewrite eqb_refl.
  - apply NoDup_cons in Hwf as [Hhead Hrest].
    destruct (PyStr.eqb k' k) eqn:Hk.
    + unfold entries_under. simpl. rewrite Hk. simpl. f_equal.
      apply eqb_true in Hk. subst k'.
      apply entries_under_absent. now rewrite <- list_elem_of_In.
    + unfold entries_under. simpl. rewrite Hk. now apply IH.
Qed.

Lemma dict_get_absent (self : AddressBook.t) (k : str) :
  ~ In k (keys self) -> dict_get self k = None.
Proof.
  unfold keys. induction self as [|[k' v'] rest IH]; simpl; [reflexivity|].
  intros Hnot. destruct (PyStr.eqb k' k) eqn:Hk.
  - apply eqb_true in Hk. tauto.
  - apply IH. tauto.
Qed.

Lemma delete_absent (self : AddressBook.t) (k : str) :
  ~ In k (keys self) -> delete self k = self.
Proof.
  intros Hnot. unfold delete.
  destruct (contains self k) eqn:Hk; [|reflexivity].
  apply contains_In in Hk. tauto.
Qed.

(** C7.  Adding two records of the same name one after the other leaves
    exactly one entry under that name and [find] returns the second record
    as it is; for a name that the ledger does not hold, [find] returns
    [None] and [delete] changes nothing. *)
Theorem add_record_overwrites_and_absent_is_noop
    (book : AddressBook.t) (r1 r2 : ContactRecord) (nm : str) :
  wf book ->
  value (name r1) = value (name r2) ->
  entries_under (add_record (add_record book r1) r2) (value (name r2)) = 1%nat
  /\ find (add_record (add_record book r1) r2) (value (name r2)) = Some r2
  /\ (~ In nm (keys book) -> find book nm = None /\ delete book nm = book).
Proof.
  intros Hwf Hname. split; [|split].
  - unfold add_record. apply entries_under_dict_set.
    now apply wf_dict_set.
  - unfold find, add_record. apply dict_get_set.
  - intros Habsent. split.
    + now apply dict_get_absent.
    + now apply delete_absent.
Qed.

Lemma add_record_overwrites_and_absent_is_noop_witness :
  entries_under (add_record (add_record [(PyStr.lit "Lea", lea)] ann) ann_with_phone)
                (value (name ann_with_phone)) = 1%nat
  /\ find (add_record (add_record [(PyStr.lit "Lea", lea)] ann) ann_with_phone)
          (value (name ann_with_phone)) = Some ann_with_phone
  /\ (~ In (PyStr.lit "Bob") (keys [(PyStr.lit "Lea", lea)]) ->
      find [(PyStr.lit "Lea", lea)] (PyStr.lit "Bob") = None
      /\ delete [(PyStr.lit "Lea", lea)] (PyStr.lit "Bob") = [(PyStr.lit "Lea", lea)]).
Proof.
  apply (add_record_overwrites_and_absent_is_noop
           [(PyStr.lit "Lea", lea)] ann ann_with_phone (PyStr.lit "Bob")).
  - unfold wf. simpl. apply NoDup_singleton.
  - reflexivity.
Defined.

(** ** The calendar *)

Section Calendar.

Local Ltac divmod := Z.div_mod_to_equations; lia.

(* Evaluate the table lookups and comparisons on literals. *)
Local Ltac tables :=
  repeat match goal with
         | |- context [item ?t ?i] =>
             let v := eval vm_compute in (item t i) in change (item t i) with v
         | H : context [item ?t ?i] |- _ =>
             let v := eval vm_compute in (item t i) in change (item t i) with v in H
         end;
  cbn in *.

Lemma is_leap_period (y k : Z) : is_leap (y + 400 * k) = is_leap y.
Proof.
  unfold is_leap.
  replace ((y + 400 * k) mod 4) with (y mod 4) by divmod.
  replace ((y + 400 * k) mod 100) with (y mod 100) by divmod.
  replace ((y + 400 * k) mod 400) with (y mod 400) by divmod.
  reflexivity.
Qed.

Lemma days_before_year_period (y k : Z) :
  days_before_year (y + 400 * k) = days_before_year y + DI400Y * k.
Proof.
  change DI400Y with 146097. unfold days_before_year. cbv zeta. divmod.
Qed.

Lemma days_in_month_period (y m k : Z) :
  days_in_month (y + 400 * k) m = days_in_month y m.
Proof. unfold days_in_month. now rewrite is_leap_period. Qed.

Lemma ymd2ord_period (y m d k : Z) :
  ymd2ord (y + 400 * k) m d = ymd2ord y m d + DI400Y * k.
Proof.
  unfold ymd2ord, days_before_month.
  rewrite days_before_year_period, is_leap_period. lia.
Qed.

Lemma ord2ymd_period (n k : Z) :
  ord2ymd (n + DI400Y * k)
  = (fst (fst (ord2ymd n)) + 400 * k, snd (fst (ord2ymd n)), snd (ord2ymd n)).
Proof.
  unfold ord2ymd.
  replace ((n + DI400Y * k - 1) / DI400Y) with ((n - 1) / DI400Y + k)
    by (change DI400Y with 146097; divmod).
  replace ((n + DI400Y * k - 1) mod DI400Y) with ((n - 1) mod DI400Y)
    by (change DI400Y with 146097; divmod).
  cbv zeta.
  repeat match goal with
         | |- context [if ?b then _ else _] =>
             lazymatch b with
             | context [if _ then _ else _] => fail
             | _ => destruct b
             end
         end;
    simpl fst; simpl snd; f_equal; try f_equal; lia.
Qed.


Lemma all_from_spec (p : Z -> bool) (len : nat) (lo n : Z) :
  all_from p lo len = true -> lo <= n < lo + Z.of_nat len -> p n = true.
Proof.
  revert lo. induction len as [|len IH]; intros lo Hall Hn; [lia|].
  simpl in Hall. apply andb_true_iff in Hall as [Hlo Hrest].
  destruct (Z.eq_dec n lo) as [->|Hne]; [assumption|].
  apply (IH (lo + 1)); [assumption | lia].
Qed.

(** The ordinals of one cycle of 400 years, by evaluation. *)
Lemma ordinal_checks_cycle :
  all_from ordinal_checks 1 (Z.to_nat DI400Y) = true.
Proof. vm_compute. reflexivity. Qed.

(** Every later ordinal is one of those, a whole number of cycles on. *)
Lemma ordinal_checks_all (n : Z) : 1 <= n -> ordinal_checks n = true.
Proof.
  intros Hn.
  pose (k := (n - 1) / DI400Y). pose (r := (n - 1) mod DI400Y + 1).
  assert (Hk : 0 <= k) by (subst k; change DI400Y with 146097; divmod).
  assert (Hr : 1 <= r <= 146097) by (subst r; change DI400Y with 146097; divmod).
  assert (Hsplit : n = r + DI400Y * k)
    by (subst r k; change DI400Y with 146097; divmod).
  assert (Hcheck : ordinal_checks r = true).
  { apply (all_from_spec _ _ _ _ ordinal_checks_cycle).
    change DI400Y with 146097. lia. }
  rewrite Hsplit. unfold ordinal_checks in *.
  rewrite ord2ymd_period.
  destruct (ord2ymd r) as [[y m] d]. simpl fst. simpl snd.
  rewrite days_in_month_period, ymd2ord_period.
  repeat (apply andb_true_iff in Hcheck as [Hcheck ?]).
  repeat match goal with
         | H : (_ <=? _) = true |- _ => apply Z.leb_le in H
         | H : (_ =? _) = true |- _ => apply Z.eqb_eq in H
         end.
  repeat (apply andb_true_iff; split);
    try (apply Z.leb_le); try (apply Z.eqb_eq); lia.
Qed.

Lemma month_cases (m : Z) :
  1 <= m <= 12 ->
  m = 1 \/ m = 2 \/ m = 3 \/ m = 4 \/ m = 5 \/ m = 6
  \/ m = 7 \/ m = 8 \/ m = 9 \/ m = 10 \/ m = 11 \/ m = 12.
Proof. lia. Qed.

(** The days of a year before a valid month and day. *)
Lemma days_before_month_bounds (y m d : Z) :
  1 <= m <= 12 -> 1 <= d <= days_in_month y m ->
  1 <= days_before_month y m + d <= 365 + (if is_leap y then 1 else 0).
Proof.
  intros Hm Hd. unfold days_before_month, days_in_month in *.
  apply month_cases in Hm.
  repeat destruct Hm as [-> | Hm]; try subst m;
    destruct (is_leap y); tables; lia.
Qed.

Lemma days_before_year_upper (y : Z) :
  y <= 9998 -> days_before_year y <= 3651329.
Proof. unfold days_before_year. cbv zeta. intros Hy. divmod. Qed.

Lemma days_before_year_lower (y : Z) :
  1 <= y -> 0 <= days_before_year y.
Proof. unfold days_before_year. cbv zeta. intros Hy. divmod. Qed.

Lemma days_before_year_beyond (y : Z) :
  10000 <= y -> MAXORDINAL <= days_before_year y.
Proof.
  unfold days_before_year, MAXORDINAL. cbv zeta. intros Hy. divmod.
Qed.

Lemma valid_date_fields (d : date) :
  valid_date d = true <->
  1 <= year d <= 9999 /\ 1 <= month d <= 12
  /\ 1 <= day d <= days_in_month (year d) (month d).
Proof.
  unfold valid_date, MINYEAR, MAXYEAR.
  rewrite !andb_true_iff, !Z.leb_le. tauto.
Qed.

Lemma date_new_Ok (y m d : Z) (r : date) :
  date_new y m d = Ok r <-> r = mkdate y m d /\ valid_date (mkdate y m d) = true.
Proof.
  unfold date_new, valid_date. simpl.
  destruct (MINYEAR <=? y), (y <=? MAXYEAR), (1 <=? m), (m <=? 12), (1 <=? d),
    (d <=? days_in_month y m); simpl;
    (split; [intros [= <-]; auto | intros [-> [=]]; reflexivity]).
Qed.

Lemma date_new_valid (d : date) :
  valid_date d = true -> date_new (year d) (month d) (day d) = Ok d.
Proof. intros Hd. apply date_new_Ok. now destruct d. Qed.

(** The ordinal of a date that the constructor accepts. *)
Lemma toordinal_bounds (d : date) :
  valid_date d = true -> 1 <= toordinal d <= MAXORDINAL.
Proof.
  intros Hd. apply valid_date_fields in Hd as (Hy & Hm & Hday).
  pose proof (days_before_month_bounds _ _ _ Hm Hday) as Hin.
  pose proof (days_before_year_lower (year d) ltac:(lia)) as Hlo.
  unfold toordinal, ymd2ord, MAXORDINAL.
  destruct (Z.eq_dec (year d) 9999) as [E|E].
  - rewrite E in *. change (is_leap 9999) with false in Hin.
    change (days_before_year 9999) with 3651694 in *. lia.
  - pose proof (days_before_year_upper (year d) ltac:(lia)) as Hup.
    destruct (is_leap (year d)); lia.
Qed.

(** [fromordinal] inverts [toordinal] on the ordinals of the years 1 to
    9999, and never raises there. *)
Lemma fromordinal_toordinal (n : Z) :
  1 <= n <= MAXORDINAL ->
  exists d : date, fromordinal n = Ok d /\ toordinal d = n /\ valid_date d = true.
Proof.
  intros [Hlo Hhi]. pose proof (ordinal_checks_all n Hlo) as Hcheck.
  unfold ordinal_checks, fromordinal in *.
  destruct (ord2ymd n) as [[y m] d].
  repeat (apply andb_true_iff in Hcheck as [Hcheck ?]).
  repeat match goal with
         | H : (_ <=? _) = true |- _ => apply Z.leb_le in H
         | H : (_ =? _) = true |- _ => apply Z.eqb_eq in H
         end.
  assert (Hy : y <= 9999).
  { destruct (Z_le_gt_dec 10000 y) as [Hbig|]; [|lia].
    pose proof (days_before_year_beyond y Hbig).
    pose proof (days_before_month_bounds y m d ltac:(lia) ltac:(lia)).
    unfold ymd2ord in *. lia. }
  assert (Hvalid : valid_date (mkdate y m d) = true)
    by (apply valid_date_fields; simpl; lia).
  exists (mkdate y m d). split; [|split]; try assumption.
  now apply (date_new_valid (mkdate y m d)).
Qed.

Lemma weekday_range (d : date) : 0 <= weekday d < 7.
Proof. unfold weekday. divmod. Qed.

Lemma date_add_in_range (d : date) (days : Z) :
  1 <= toordinal d + days <= MAXORDINAL ->
  exists r : date,
    date_add d days = Ok r /\ toordinal r = toordinal d + days
    /\ valid_date r = true.
Proof.
  intros Hrange. unfold date_add.
  replace ((0 <? toordinal d + days) && (toordinal d + days <=? MAXORDINAL))
    with true by (symmetry; apply andb_true_iff; split;
                  [apply Z.ltb_lt | apply Z.leb_le]; lia).
  now apply fromordinal_toordinal.
Qed.

(** A Saturday or Sunday of the years 1 to 9999 has its next Monday in
    those years too: the last day, 31 December 9999, is a Friday. *)
Lemma weekend_has_next_monday (d : date) :
  valid_date d = true -> 5 <= weekday d ->
  1 <= toordinal d + (DAYS_IN_WEEK - weekday d) <= MAXORDINAL.
Proof.
  intros Hd Hwd. apply toordinal_bounds in Hd.
  unfold weekday, MAXORDINAL, DAYS_IN_WEEK in *. divmod.
Qed.

(** [adjust_for_weekend] on a date of the years 1 to 9999: it returns, on
    a Saturday two days later, on a Sunday one day later, otherwise the
    date itself, and what it returns is no Saturday and no Sunday. *)
Lemma adjust_for_weekend_spec (d : date) :
  valid_date d = true ->
  exists r : date,
    adjust_for_weekend d = Ok r
    /\ valid_date r = true
    /\ (weekday d = 5 -> date_add d 2 = Ok r /\ toordinal r = toordinal d + 2)
    /\ (weekday d = 6 -> date_add d 1 = Ok r /\ toordinal r = toordinal d + 1)
    /\ (weekday d <> 5 -> weekday d <> 6 -> r = d)
    /\ weekday r <> 5 /\ weekday r <> 6.
Proof.
  intros Hd. pose proof (weekday_range d) as Hwd.
  unfold adjust_for_weekend, WEEKEND_DAYS. cbn [existsb].
  destruct (weekday d =? 5) eqn:E5; [|destruct (weekday d =? 6) eqn:E6].
  - apply Z.eqb_eq in E5. cbn [orb].
    destruct (date_add_in_range d (DAYS_IN_WEEK - weekday d)) as (r & Hr & Hord & Hv).
    { apply weekend_has_next_monday; [assumption | lia]. }
    exists r. rewrite Hr. rewrite E5 in Hr, Hord. change (DAYS_IN_WEEK - 5) with 2 in *.
    repeat split; try assumption; try lia;
      unfold weekday in *; rewrite Hord; divmod.
  - apply Z.eqb_eq in E6. apply Z.eqb_neq in E5. cbn [orb].
    destruct (date_add_in_range d (DAYS_IN_WEEK - weekday d)) as (r & Hr & Hord & Hv).
    { apply weekend_has_next_monday; [assumption | lia]. }
    exists r. rewrite Hr. rewrite E6 in Hr, Hord. change (DAYS_IN_WEEK - 6) with 1 in *.
    repeat split; try assumption; try lia;
      unfold weekday in *; rewrite Hord; divmod.
  - apply Z.eqb_neq in E5, E6. cbn [orb]. exists d.
    repeat split; try assumption; try lia.
Qed.

End Calendar.

(** ** Parsing what [strftime] prints *)

Section RoundTrip.

Local Ltac cases_Z n lo hi :=
  let rec go k :=
    let inside := eval vm_compute in (k <=? hi) in
    lazymatch inside with
    | true =>
        destruct (Z.eq_dec n k) as [->|?];
        [ | let k' := eval vm_compute in (k + 1) in go k' ]
    | false => exfalso; lia
    end
  in go lo.

Lemma tokens_DATE_FORMAT :
  tokens DATE_FORMAT
  = [Dir (ord "d"); Lit (ord "."); Dir (ord "m"); Lit (ord "."); Dir (ord "Y")].
Proof. reflexivity. Qed.

Lemma strftime_DATE_FORMAT (d : date) :
  strftime d DATE_FORMAT
  = fmt02 (day d) ++ [ord "."] ++ fmt02 (month d) ++ [ord "."] ++ fmt_year (year d).
Proof.
  unfold strftime. rewrite tokens_DATE_FORMAT.
  cbn [map concat strftime_token].
  change (ord "d" =? ord "d") with true.
  change (ord "m" =? ord "d") with false.
  change (ord "m" =? ord "m") with true.
  change (ord "Y" =? ord "d") with false.
  change (ord "Y" =? ord "m") with false.
  change (ord "Y" =? ord "Y") with true.
  cbv iota. now rewrite app_nil_r.
Qed.

Lemma match_format_Dir (c : Z) (ts : list token) (s : str) :
  match_format (Dir c :: ts) s
  = match directive_regex c with
    | Some r =>
        flat_map (fun m => map (fun e => ((c, fst m) :: fst e, snd e))
                               (match_format ts (snd m)))
                 (rmatch r s)
    | None => []
    end.
Proof. reflexivity. Qed.

Lemma match_format_Lit (c : Z) (ts : list token) (s : str) :
  match_format (Lit c :: ts) s
  = flat_map (fun m => match_format ts (snd m)) (rchar (fun x => x =? c) s).
Proof. reflexivity. Qed.

(* Evaluate a directive followed by a literal on a text whose head is
   known. *)
Local Ltac evaluate t :=
  let v := eval vm_compute in t in change t with v.

Local Ltac run_directive :=
  repeat match goal with
         | |- context [fmt02 ?k] => evaluate (fmt02 k)
         | |- context [ord ?a] => evaluate (ord a)
         end;
  rewrite match_format_Dir;
  match goal with
  | |- context [directive_regex ?c] => evaluate (directive_regex c)
  end;
  cbv iota;
  match goal with
  | |- context [rmatch ?r ?s] =>
      let v := eval cbv in (rmatch r s) in change (rmatch r s) with v
  end;
  cbn [flat_map map fst snd];
  rewrite !match_format_Lit;
  repeat match goal with
         | |- context [rchar ?p ?s] =>
             let v := eval cbv in (rchar p s) in change (rchar p s) with v
         end;
  cbn [flat_map map app fst snd];
  rewrite ?app_nil_r;
  reflexivity.

Lemma match_day (n : Z) (ts : list token) (rest : str) :
  1 <= n <= 31 ->
  match_format (Dir (ord "d") :: Lit (ord ".") :: ts) (fmt02 n ++ ord "." :: rest)
  = map (fun e => ((ord "d", fmt02 n) :: fst e, snd e)) (match_format ts rest).
Proof.
  intros Hn. cases_Z n 1 31; run_directive.
Qed.

Lemma match_month (n : Z) (ts : list token) (rest : str) :
  1 <= n <= 12 ->
  match_format (Dir (ord "m") :: Lit (ord ".") :: ts) (fmt02 n ++ ord "." :: rest)
  = map (fun e => ((ord "m", fmt02 n) :: fst e, snd e)) (match_format ts rest).
Proof.
  intros Hn. cases_Z n 1 12; run_directive.
Qed.

Lemma match_year_checked :
  all_from (fun y => bool_decide (match_format [Dir (ord "Y")] (fmt04 y)
                                  = [([(ord "Y", fmt04 y)], [])]))
           1 (Z.to_nat 9999) = true.
Proof. vm_compute. reflexivity. Qed.

Lemma int_fmt02_checked :
  all_from (fun n => bool_decide (int (fmt02 n) = Some n)) 1 (Z.to_nat 31) = true.
Proof. vm_compute. reflexivity. Qed.

Lemma int_fmt04_checked :
  all_from (fun y => bool_decide (int (fmt04 y) = Some y)) 1 (Z.to_nat 9999) = true.
Proof. vm_compute. reflexivity. Qed.

Lemma match_year (y : Z) :
  1 <= y <= 9999 ->
  match_format [Dir (ord "Y")] (fmt04 y) = [([(ord "Y", fmt04 y)], [])].
Proof.
  intros Hy.
  apply (bool_decide_eq_true_1 _).
  apply (all_from_spec _ _ _ _ match_year_checked). lia.
Qed.

Lemma int_fmt02 (n : Z) : 1 <= n <= 31 -> int (fmt02 n) = Some n.
Proof.
  intros Hn. apply (bool_decide_eq_true_1 _).
  apply (all_from_spec _ _ _ _ int_fmt02_checked). lia.
Qed.

Lemma int_fmt04 (y : Z) : 1 <= y <= 9999 -> int (fmt04 y) = Some y.
Proof.
  intros Hy. apply (bool_decide_eq_true_1 _).
  apply (all_from_spec _ _ _ _ int_fmt04_checked). lia.
Qed.

Lemma fmt_year_checked :
  all_from (fun y => bool_decide (fmt_year y = fmt04 y)) 1000 (Z.to_nat 9000) = true.
Proof. vm_compute. reflexivity. Qed.

(** From the year 1000 on [%Y] prints four digits. *)
Lemma fmt_year_four_digits (y : Z) : 1000 <= y <= 9999 -> fmt_year y = fmt04 y.
Proof.
  intros Hy. apply (bool_decide_eq_true_1 _).
  apply (all_from_spec _ _ _ _ fmt_year_checked). lia.
Qed.

Lemma short_year_checked :
  all_from (fun y => bool_decide (match_format [Dir (ord "Y")] (fmt_year y) = []))
           1 (Z.to_nat 999) = true.
Proof. vm_compute. reflexivity. Qed.

(** Before the year 1000 it prints fewer, and [%Y] of [strptime] does not
    match them. *)
Lemma match_short_year (y : Z) :
  1 <= y < 1000 -> match_format [Dir (ord "Y")] (fmt_year y) = [].
Proof.
  intros Hy. apply (bool_decide_eq_true_1 _).
  apply (all_from_spec _ _ _ _ short_year_checked). lia.
Qed.

Lemma days_in_month_le_31 (y m : Z) : 1 <= m <= 12 -> days_in_month y m <= 31.
Proof.
  intros Hm. unfold days_in_month. apply month_cases in Hm.
  repeat destruct Hm as [-> | Hm]; try subst m;
    destruct (is_leap y); vm_compute; discriminate.
Qed.

(** [strptime] reads back the date that [strftime] printed, under
    [DATE_FORMAT], for every date of the years 1000 to 9999. *)
Lemma strptime_strftime (d : date) :
  valid_date d = true ->
  1000 <= year d ->
  strptime (strftime d DATE_FORMAT) DATE_FORMAT = Some (mkdatetime d 0 0 0 0).
Proof.
  intros Hd H1000. pose proof Hd as Hfields.
  apply valid_date_fields in Hfields as (Hy & Hm & Hday).
  pose proof (days_in_month_le_31 (year d) (month d) Hm) as H31.
  unfold strptime.
  rewrite strftime_DATE_FORMAT, tokens_DATE_FORMAT. cbn [app].
  rewrite fmt_year_four_digits by lia.
  rewrite match_day by lia. rewrite match_month by lia.
  rewrite match_year by lia. cbn [map fst snd].
  unfold captured. cbn [List.find fst snd].
  change (ord "d" =? ord "m") with false.
  change (ord "m" =? ord "m") with true.
  change (ord "d" =? ord "d") with true.
  change (ord "d" =? ord "Y") with false.
  change (ord "m" =? ord "Y") with false.
  change (ord "Y" =? ord "Y") with true.
  cbn [fmap option_fmap option_map default snd].
  rewrite !int_fmt02 by lia. rewrite int_fmt04 by lia.
  unfold mbind, option_bind. cbv beta iota delta [id].
  now rewrite date_new_valid.
Qed.

(** A date before the year 1000 is printed with a year that [strptime]
    refuses. *)
Lemma strptime_refuses_early_year (d : date) :
  valid_date d = true ->
  year d < 1000 ->
  strptime (strftime d DATE_FORMAT) DATE_FORMAT = None.
Proof.
  intros Hd Hearly. pose proof Hd as Hfields.
  apply valid_date_fields in Hfields as (Hy & Hm & Hday).
  pose proof (days_in_month_le_31 (year d) (month d) Hm) as H31.
  unfold strptime.
  rewrite strftime_DATE_FORMAT, tokens_DATE_FORMAT. cbn [app].
  rewrite match_day by lia. rewrite match_month by lia.
  rewrite match_short_year by lia. reflexivity.
Qed.

End RoundTrip.

(** ** Birthdays of a record *)

(** What [strptime] returns is a date that exists, at midnight. *)
Lemma strptime_valid (v fmt : str) (dt : datetime) :
  strptime v fmt = Some dt ->
  valid_date (date_of dt) = true /\ dt = mkdatetime (date_of dt) 0 0 0 0.
Proof.
  unfold strptime. intros H.
  destruct (match_format (tokens fmt) v) as [|[env rest] ms]; [discriminate|].
  destruct rest; [|discriminate].
  destruct (default (Some 1) (int <$> captured (ord "m") env)) as [m|];
    [|discriminate].
  destruct (default (Some 1) (int <$> captured (ord "d") env)) as [d|];
    [|discriminate].
  cbn [mbind option_bind] in H.
  destruct (match captured (ord "Y") env with
            | Some t => int t
            | None => if (m =? 2) && (d =? 29) then None else Some 1900
            end) as [y|]; [|discriminate].
  cbn [mbind option_bind] in H.
  destruct (date_new y m d) as [dd|e] eqn:Hnew; [|discriminate].
  injection H as <-. apply date_new_Ok in Hnew as [-> Hvalid].
  split; [exact Hvalid | reflexivity].
Qed.

(** C5.  [add_birthday] parses its argument with the format [DD.MM.YYYY]
    ([strptime] under [DATE_FORMAT]).  When the parse succeeds the parsed
    date, a date of the calendar at midnight, becomes the birthday of the
    record, whatever birthday it had, name and phones stay, and the success
    message is returned; when it fails the fixed format-error message is
    returned and the record, with its earlier birthday, is unchanged.  The
    call never raises. *)
Theorem add_birthday_parses_or_reports (self : ContactRecord) (v : str) :
  (exists dt : datetime,
      strptime v DATE_FORMAT = Some dt
      /\ valid_date (date_of dt) = true
      /\ dt = mkdatetime (date_of dt) 0 0 0 0
      /\ add_birthday self v
         = Ok (mkRecord (name self) (phones self) (Some (mkField dt)),
               BIRTHDAY_ADDED_MSG))
  \/ (strptime v DATE_FORMAT = None
      /\ add_birthday self v = Ok (self, INVALID_DATE_MSG)).
Proof.
  unfold add_birthday, Birthday_init.
  destruct (strptime v DATE_FORMAT) as [dt|] eqn:Hparse.
  - left. exists dt. destruct (strptime_valid _ _ _ Hparse) as [Hvalid Hmid].
    repeat split; assumption.
  - right. split; reflexivity.
Qed.



(** The text [DD.MM.YYYY] of a date of the years 1000 to 9999 is accepted
    by [add_birthday], which stores that date. *)
Lemma add_birthday_accepts_DATE_FORMAT (self : ContactRecord) (d : date) :
  valid_date d = true ->
  1000 <= year d ->
  add_birthday self (strftime d DATE_FORMAT)
  = Ok (set_birthday self (Some (mkField (mkdatetime d 0 0 0 0))), BIRTHDAY_ADDED_MSG).
Proof.
  intros Hd H1000. unfold add_birthday, Birthday_init.
  now rewrite strptime_strftime.
Qed.

(** [strptime] is more lenient than the format [DD.MM.YYYY]: a day or a
    month of one digit is read, and any Unicode decimal digit counts; a
    two-digit year, another separator or a date that does not exist is
    refused. *)
Lemma strptime_samples :
  strptime (PyStr.lit "5.3.1990") DATE_FORMAT
  = Some (mkdatetime (mkdate 1990 3 5) 0 0 0 0)
  /\ strptime ([49; 1637] ++ PyStr.lit ".03.1990") DATE_FORMAT
     = Some (mkdatetime (mkdate 1990 3 15) 0 0 0 0)
  /\ strptime (PyStr.lit "15.03.90") DATE_FORMAT = None
  /\ strptime (PyStr.lit "23-01-1985") DATE_FORMAT = None
  /\ strptime (PyStr.lit "31.04.1990") DATE_FORMAT = None
  /\ strptime (PyStr.lit "29.02.1900") DATE_FORMAT = None
  /\ strptime (PyStr.lit "15.03.19901") DATE_FORMAT = None.
Proof. repeat split; vm_compute; reflexivity. Qed.

(** ** The upcoming birthdays *)

Lemma replace_year_Ok (d r : date) (y : Z) :
  replace_year d y = Ok r -> valid_date r = true.
Proof. unfold replace_year. intros H. apply date_new_Ok in H as [-> H]. exact H. Qed.

Lemma date_new_raises (y m d : Z) (e : exn) :
  date_new y m d = Raise e -> exists msg : str, e = ValueError msg.
Proof.
  unfold date_new. intros H.
  repeat match type of H with
         | (if ?b then _ else _) = _ => destruct b
         end; inversion H; eauto.
Qed.

(** The candidate date is a date of the years 1 to 9999. *)
Lemma birthday_this_year_valid (today : date) (b : Birthday) (c : date) :
  birthday_this_year today b = Ok c -> valid_date c = true.
Proof.
  unfold birthday_this_year, bind.
  destruct (replace_year (date_of (value b)) (year today)) as [c0|e] eqn:H0;
    [|discriminate].
  destruct (date_ltb c0 today).
  - apply replace_year_Ok.
  - intros [= <-]. now apply replace_year_Ok in H0.
Qed.

Lemma birthday_this_year_raises (today : date) (b : Birthday) (e : exn) :
  birthday_this_year today b = Raise e -> exists msg : str, e = ValueError msg.
Proof.
  unfold birthday_this_year, bind, replace_year.
  destruct (date_new (year today) _ _) as [c0|e0] eqn:H0.
  - destruct (date_ltb c0 today); [|discriminate]. apply date_new_raises.
  - intros [= <-]. now apply date_new_raises in H0.
Qed.

(** Moving a date into the year [y] succeeds unless the date is
    29 February and [y] has none. *)
Lemma replace_year_returns (d : date) (y : Z) :
  valid_date d = true -> 1 <= y <= 9999 ->
  (month d = 2 -> day d = 29 -> is_leap y = true) ->
  replace_year d y = Ok (mkdate y (month d) (day d)).
Proof.
  intros Hd Hy Hfeb. apply valid_date_fields in Hd as (_ & Hm & Hday).
  unfold replace_year. apply date_new_Ok. split; [reflexivity|].
  apply valid_date_fields. cbn [year month day]. repeat split; try lia.
  unfold days_in_month in *.
  destruct (month d =? 2) eqn:E2; cbn [andb] in *; [|lia].
  apply Z.eqb_eq in E2. rewrite E2 in *.
  change (item DAYS_IN_MONTH 2) with 28 in *.
  destruct (is_leap (year d)), (is_leap y) eqn:Hleap; lia.
Qed.

(** The candidate date exists for every birthday other than 29 February,
    as long as the following year is a year of the calendar. *)
Lemma birthday_this_year_returns (today : date) (b : Birthday) :
  valid_date (date_of (value b)) = true ->
  1 <= year today < 9999 ->
  ~ (month (date_of (value b)) = 2 /\ day (date_of (value b)) = 29) ->
  exists c : date, birthday_this_year today b = Ok c.
Proof.
  intros Hb Hy Hfeb. unfold birthday_this_year.
  rewrite (replace_year_returns _ (year today) Hb) by (try lia; tauto).
  cbn [bind]. destruct (date_ltb _ today); [|eauto].
  rewrite replace_year_returns; [eauto | | lia | cbn [month day]; tauto].
  apply valid_date_fields in Hb as (_ & Hm & Hday).
  apply valid_date_fields. cbn [year month day]. repeat split; try lia.
  unfold days_in_month in *.
  destruct (month (date_of (value b)) =? 2) eqn:E2; cbn [andb] in *; [|lia].
  apply Z.eqb_eq in E2. rewrite E2 in *.
  change (item DAYS_IN_MONTH 2) with 28 in *.
  destruct (is_leap (year (date_of (value b)))), (is_leap (year today)); lia.
Qed.

(** The loop body on a contact whose candidate date exists: a greeting
    for the contact when the candidate is at most seven days ahead, nothing
    otherwise. *)
Lemma upcoming_step_window (today : date) (contact : ContactRecord)
    (b : Birthday) (c : date) :
  birthday contact = Some b ->
  birthday_this_year today b = Ok c ->
  exists r : date,
    adjust_for_weekend c = Ok r
    /\ upcoming_step today contact
       = Ok (if (0 <=? days_between c today) && (days_between c today <=? 7)
             then Some (mkGreeting (value (name contact)) (strftime r DATE_FORMAT))
             else None).
Proof.
  intros Hb Hc. unfold upcoming_step. rewrite Hb, Hc. cbn [bind].
  destruct (adjust_for_weekend_spec c (birthday_this_year_valid _ _ _ Hc))
    as (r & Hr & _).
  exists r. split; [assumption|]. rewrite Hr.
  now destruct ((0 <=? days_between c today) && (days_between c today <=? 7)).
Qed.

Lemma upcoming_step_raises (today : date) (contact : ContactRecord) (e : exn) :
  upcoming_step today contact = Raise e ->
  exists b : Birthday,
    birthday contact = Some b /\ birthday_this_year today b = Raise e.
Proof.
  unfold upcoming_step. destruct (birthday contact) as [b|]; [|discriminate].
  destruct (birthday_this_year today b) as [c|e0] eqn:Hc.
  - destruct (upcoming_step_window today (mkRecord (name contact) (phones contact) (Some b))
                b c eq_refl Hc) as (r & Hr & _).
    cbn [bind]. rewrite Hr. cbn [bind].
    now destruct (negb _).
  - cbn [bind]. intros [= <-]. now exists b.
Qed.

Lemma upcoming_loop_acc (today : date) (contacts : AddressBook.t)
    (acc : list greeting) :
  upcoming_loop today contacts acc
  = (try! gs := upcoming_loop today contacts [] in Ok (acc ++ gs)).
Proof.
  revert acc. induction contacts as [|[k contact] rest IH]; intros acc; simpl.
  - now rewrite app_nil_r.
  - destruct (upcoming_step today contact) as [g|e]; [|reflexivity].
    cbn [bind]. destruct g as [x|].
    + rewrite (IH (acc ++ [x])), (IH [x]).
      destruct (upcoming_loop today rest []) as [gs|e]; [|reflexivity].
      cbn [bind]. now rewrite <- app_assoc.
    + apply IH.
Qed.

Lemma get_upcoming_birthdays_cons (today : date) (k : str)
    (contact : ContactRecord) (rest : AddressBook.t) :
  get_upcoming_birthdays today ((k, contact) :: rest)
  = (try! g := upcoming_step today contact in
     try! gs := get_upcoming_birthdays today rest in
     Ok (option_list g ++ gs)).
Proof.
  unfold get_upcoming_birthdays. simpl.
  destruct (upcoming_step today contact) as [g|e]; [|reflexivity].
  cbn [bind]. rewrite upcoming_loop_acc.
  destruct (upcoming_loop today rest []) as [gs|e]; [|reflexivity].
  now destruct g.
Qed.

Lemma get_upcoming_birthdays_app (today : date) (pre post : AddressBook.t) :
  get_upcoming_birthdays today (pre ++ post)
  = (try! a := get_upcoming_birthdays today pre in
     try! b := get_upcoming_birthdays today post in
     Ok (a ++ b)).
Proof.
  induction pre as [|[k contact] pre IH].
  - simpl. now destruct (get_upcoming_birthdays today post).
  - rewrite <- app_comm_cons, !get_upcoming_birthdays_cons.
    destruct (upcoming_step today contact) as [g|e]; [|reflexivity].
    cbn [bind]. rewrite IH.
    destruct (get_upcoming_birthdays today pre) as [a|e]; [|reflexivity].
    cbn [bind].
    destruct (get_upcoming_birthdays today post) as [b|e]; [|reflexivity].
    cbn [bind]. now rewrite app_assoc.
Qed.

(** X30.  The query returns, and raises nothing, whenever no birthday of
    the ledger is 29 February and the year after [today] is a year of the
    calendar. *)
Lemma get_upcoming_birthdays_returns (today : date) (book : AddressBook.t) :
  1 <= year today < 9999 ->
  (forall (k : str) (contact : ContactRecord) (b : Birthday),
      In (k, contact) book -> birthday contact = Some b ->
      valid_date (date_of (value b)) = true
      /\ ~ (month (date_of (value b)) = 2 /\ day (date_of (value b)) = 29)) ->
  exists res : list greeting, get_upcoming_birthdays today book = Ok res.
Proof.
  intros Hy Hbook. induction book as [|[k contact] rest IH].
  - now exists [].
  - rewrite get_upcoming_birthdays_cons.
    destruct IH as (gs & ->).
    { intros k' c' b' Hin. apply (Hbook k' c' b'). now right. }
    destruct (birthday contact) as [b|] eqn:Hb.
    + destruct (Hbook k contact b (or_introl eq_refl) Hb) as [Hvalid Hfeb].
      destruct (birthday_this_year_returns today b Hvalid Hy Hfeb) as (c & Hc).
      destruct (upcoming_step_window today contact b c Hb Hc) as (r & _ & ->).
      cbn [bind]. eauto.
    + unfold upcoming_step. rewrite Hb. cbn [bind]. eauto.
Qed.

(** C2.  In a query that returns, a record with a birthday contributes
    its greeting, at its place in the order of the ledger, exactly when the
    candidate date is 0 to 7 days after [today]: it is in at 7 days and out
    at 8. *)
Theorem upcoming_birthdays_window
    (today : date) (pre post : AddressBook.t) (k : str)
    (contact : ContactRecord) (b : Birthday) (res : list greeting) :
  birthday contact = Some b ->
  get_upcoming_birthdays today (pre ++ (k, contact) :: post) = Ok res ->
  exists (c : date) (before after : list greeting) (mid : option greeting),
    birthday_this_year today b = Ok c
    /\ get_upcoming_birthdays today pre = Ok before
    /\ get_upcoming_birthdays today post = Ok after
    /\ upcoming_step today contact = Ok mid
    /\ res = before ++ option_list mid ++ after
    /\ (0 <= days_between c today <= 7 ->
        exists g : greeting, mid = Some g /\ greeting_name g = value (name contact))
    /\ (~ 0 <= days_between c today <= 7 -> mid = None)
    /\ (days_between c today = 7 -> mid <> None)
    /\ (days_between c today = 8 -> mid = None).
Proof.
  intros Hb Hres.
  rewrite get_upcoming_birthdays_app, get_upcoming_birthdays_cons in Hres.
  destruct (get_upcoming_birthdays today pre) as [before|e]; [|discriminate].
  cbn [bind] in Hres.
  destruct (upcoming_step today contact) as [mid|e] eqn:Hstep; [|discriminate].
  cbn [bind] in Hres.
  destruct (get_upcoming_birthdays today post) as [after|e]; [|discriminate].
  cbn [bind] in Hres. injection Hres as <-.
  destruct (birthday_this_year today b) as [c|e] eqn:Hc.
  2:{ unfold upcoming_step in Hstep. rewrite Hb, Hc in Hstep. discriminate. }
  destruct (upcoming_step_window today contact b c Hb Hc) as (r & _ & Hwin).
  rewrite Hstep in Hwin. injection Hwin as ->.
  exists c, before, after. eexists. repeat split; try reflexivity.
  - intros [Hlo Hhi]. apply Z.leb_le in Hlo, Hhi. rewrite Hlo, Hhi. simpl. eauto.
  - intros Hout.
    destruct (0 <=? days_between c today) eqn:Hlo;
      destruct (days_between c today <=? 7) eqn:Hhi; try reflexivity.
    apply Z.leb_le in Hlo, Hhi. tauto.
  - intros ->. discriminate.
  - now intros ->.
Qed.

Lemma upcoming_birthdays_window_witness :
  exists (c : date) (before after : list greeting) (mid : option greeting),
    birthday_this_year monday_10_06_2024 (mkField (mkdatetime (mkdate 1980 6 18) 0 0 0 0))
    = Ok c
    /\ get_upcoming_birthdays monday_10_06_2024 [(PyStr.lit "Sam", sam)] = Ok before
    /\ get_upcoming_birthdays monday_10_06_2024 [(PyStr.lit "Mia", mia)] = Ok after
    /\ upcoming_step monday_10_06_2024 lea = Ok mid
    /\ [mkGreeting (PyStr.lit "Sam") (PyStr.lit "17.06.2024");
        mkGreeting (PyStr.lit "Mia") (PyStr.lit "17.06.2024")]
       = before ++ option_list mid ++ after
    /\ (0 <= days_between c monday_10_06_2024 <= 7 ->
        exists g : greeting, mid = Some g /\ greeting_name g = value (name lea))
    /\ (~ 0 <= days_between c monday_10_06_2024 <= 7 -> mid = None)
    /\ (days_between c monday_10_06_2024 = 7 -> mid <> None)
    /\ (days_between c monday_10_06_2024 = 8 -> mid = None).
Proof.
  apply (upcoming_birthdays_window monday_10_06_2024
           [(PyStr.lit "Sam", sam)] [(PyStr.lit "Mia", mia)] (PyStr.lit "Lea") lea).
  - reflexivity.
  - vm_compute. reflexivity.
Defined.

(** The scenarios of the specification with [today] = Monday 10 June 2024:
    15 June is a Saturday five days ahead and is greeted on Monday the
    17th; 17 June is seven days ahead and in; 18 June is eight days ahead
    and out. *)
Lemma upcoming_birthdays_scenario :
  weekday monday_10_06_2024 = 0
  /\ sample_book
     = [(PyStr.lit "Sam", sam); (PyStr.lit "Lea", lea); (PyStr.lit "Mia", mia)]
  /\ get_upcoming_birthdays monday_10_06_2024 sample_book
     = Ok [mkGreeting (PyStr.lit "Sam") (PyStr.lit "17.06.2024");
           mkGreeting (PyStr.lit "Mia") (PyStr.lit "17.06.2024")].
Proof. repeat split; vm_compute; reflexivity. Qed.

(** C3.  For a record that the query includes, the congratulation date is
    the candidate date plus two days when the candidate is a Saturday
    (weekday 5), plus one day when it is a Sunday (weekday 6), and the
    candidate itself otherwise; it is never a Saturday or a Sunday.  The
    reported text is that date printed with [DATE_FORMAT], and from the year
    1000 on parsing it gives the date back. *)
Theorem congratulation_date_skips_weekend
    (today : date) (contact : ContactRecord) (g : greeting) :
  upcoming_step today contact = Ok (Some g) ->
  exists (b : Birthday) (c r : date),
    birthday contact = Some b
    /\ birthday_this_year today b = Ok c
    /\ adjust_for_weekend c = Ok r
    /\ congratulation_date g = strftime r DATE_FORMAT
    /\ (1000 <= year r ->
        strptime (congratulation_date g) DATE_FORMAT = Some (mkdatetime r 0 0 0 0))
    /\ (weekday c = 5 -> date_add c 2 = Ok r /\ toordinal r = toordinal c + 2)
    /\ (weekday c = 6 -> date_add c 1 = Ok r /\ toordinal r = toordinal c + 1)
    /\ (weekday c <> 5 -> weekday c <> 6 -> r = c)
    /\ weekday r <> 5 /\ weekday r <> 6.
Proof.
  intros Hstep.
  destruct (birthday contact) as [b|] eqn:Hb.
  2:{ unfold upcoming_step in Hstep. rewrite Hb in Hstep. discriminate. }
  destruct (birthday_this_year today b) as [c|e] eqn:Hc.
  2:{ unfold upcoming_step in Hstep. rewrite Hb, Hc in Hstep. discriminate. }
  destruct (upcoming_step_window today contact b c Hb Hc) as (r & Hr & Hwin).
  rewrite Hstep in Hwin.
  destruct ((0 <=? days_between c today) && (days_between c today <=? 7));
    [|discriminate].
  injection Hwin as ->.
  destruct (adjust_for_weekend_spec c (birthday_this_year_valid _ _ _ Hc))
    as (r' & Hr' & Hvalid & Hsat & Hsun & Hweek & Hno5 & Hno6).
  assert (r' = r) as -> by congruence.
  exists b, c, r. repeat split; try assumption; try reflexivity;
    try (now apply Hsat); try (now apply Hsun).
  intros H1000. cbn [congratulation_date]. now apply strptime_strftime.
Qed.

Lemma congratulation_date_skips_weekend_witness :
  exists (b : Birthday) (c r : date),
    birthday sam = Some b
    /\ birthday_this_year monday_10_06_2024 b = Ok c
    /\ adjust_for_weekend c = Ok r
    /\ congratulation_date (mkGreeting (PyStr.lit "Sam") (PyStr.lit "17.06.2024"))
       = strftime r DATE_FORMAT
    /\ (1000 <= year r ->
        strptime (congratulation_date
                    (mkGreeting (PyStr.lit "Sam") (PyStr.lit "17.06.2024")))
                 DATE_FORMAT = Some (mkdatetime r 0 0 0 0))
    /\ (weekday c = 5 -> date_add c 2 = Ok r /\ toordinal r = toordinal c + 2)
    /\ (weekday c = 6 -> date_add c 1 = Ok r /\ toordinal r = toordinal c + 1)
    /\ (weekday c <> 5 -> weekday c <> 6 -> r = c)
    /\ weekday r <> 5 /\ weekday r <> 6.
Proof.
  apply (congratulation_date_skips_weekend monday_10_06_2024 sam).
  vm_compute. reflexivity.
Defined.

Lemma feb29_replace_year (d : date) (y : Z) :
  month d = 2 -> day d = 29 -> is_leap y = false ->
  exists msg : str,
    replace_year d y = Raise (ValueError msg)
    /\ (1 <= y <= 9999 -> msg = PyStr.lit "day is out of range for month").
Proof.
  intros Hm Hd Hleap. unfold replace_year, date_new, days_in_month.
  rewrite Hm, Hd, Hleap. cbn [Z.eqb Pos.eqb andb].
  destruct ((MINYEAR <=? y) && (y <=? MAXYEAR)) eqn:Hy; cbn [negb].
  - eexists. split; [vm_compute; reflexivity | reflexivity].
  - eexists. split; [reflexivity|]. intros [Hlo Hhi].
    apply Z.leb_le in Hlo, Hhi. unfold MINYEAR, MAXYEAR in Hy.
    rewrite Hlo, Hhi in Hy. discriminate.
Qed.

Lemma upcoming_loop_raises (today : date) (book : AddressBook.t) (k : str)
    (contact : ContactRecord) (msg : str) :
  In (k, contact) book ->
  upcoming_step today contact = Raise (ValueError msg) ->
  exists msg' : str, get_upcoming_birthdays today book = Raise (ValueError msg').
Proof.
  intros Hin Hstep. induction book as [|[k' contact'] rest IH]; [destruct Hin|].
  rewrite get_upcoming_birthdays_cons.
  destruct (upcoming_step today contact') as [g|e] eqn:Hhead.
  - destruct Hin as [[= -> ->]|Hin]; [congruence|].
    destruct (IH Hin) as (msg' & ->). now exists msg'.
  - apply upcoming_step_raises in Hhead as (b' & _ & Hraise).
    apply birthday_this_year_raises in Hraise as (msg' & ->).
    now exists msg'.
Qed.

(** C10.  With a record in the ledger whose birthday is 29 February and a
    current year that is no leap year, the query raises the [ValueError] of
    a date construction and returns no list: the candidate date of that
    record cannot be built, and within the years 1 to 9999 the error is
    that the day is out of range for the month. *)
Theorem feb29_birthday_raises_in_common_year
    (today : date) (book : AddressBook.t) (k : str)
    (contact : ContactRecord) (b : Birthday) :
  In (k, contact) book ->
  birthday contact = Some b ->
  month (date_of (value b)) = 2 ->
  day (date_of (value b)) = 29 ->
  is_leap (year today) = false ->
  (exists msg : str, get_upcoming_birthdays today book = Raise (ValueError msg))
  /\ exists msg : str,
       birthday_this_year today b = Raise (ValueError msg)
       /\ (1 <= year today <= 9999 -> msg = PyStr.lit "day is out of range for month").
Proof.
  intros Hin Hb Hm Hd Hleap.
  destruct (feb29_replace_year _ _ Hm Hd Hleap) as (msg & Hrep & Hmsg).
  assert (Hc : birthday_this_year today b = Raise (ValueError msg)).
  { unfold birthday_this_year. now rewrite Hrep. }
  split; [|now exists msg].
  apply (upcoming_loop_raises today book k contact msg Hin).
  unfold upcoming_step. now rewrite Hb, Hc.
Qed.

Lemma feb29_birthday_raises_in_common_year_witness :
  (exists msg : str,
      get_upcoming_birthdays (mkdate 2025 6 10)
        [(PyStr.lit "Sam", sam); (PyStr.lit "Feb", feb)] = Raise (ValueError msg))
  /\ exists msg : str,
       birthday_this_year (mkdate 2025 6 10)
         (mkField (mkdatetime (mkdate 2000 2 29) 0 0 0 0)) = Raise (ValueError msg)
       /\ (1 <= year (mkdate 2025 6 10) <= 9999 ->
           msg = PyStr.lit "day is out of range for month").
Proof.
  apply (feb29_birthday_raises_in_common_year (mkdate 2025 6 10)
           [(PyStr.lit "Sam", sam); (PyStr.lit "Feb", feb)] (PyStr.lit "Feb") feb).
  - right. left. reflexivity.
  - reflexivity.
  - reflexivity.
  - reflexivity.
  - reflexivity.
Defined.

(** * Further properties *)

(** ** Records *)

Lemma set_phones_same (self : ContactRecord) : set_phones self (phones self) = self.
Proof. now destruct self. Qed.

(** The phone that the loops of [remove_phone], [edit_phone] and
    [find_phone] stop at splits the list: no phone before it has the
    value. *)
Lemma first_phone_split (v : str) (ps : list Phone) (i : nat) (ph : Phone) :
  first_phone v ps = Some (i, ph) ->
  exists pre post : list Phone,
    ps = pre ++ ph :: post /\ length pre = i /\ value ph = v
    /\ Forall (fun p : Phone => value p <> v) pre.
Proof.
  intros Hfind. apply first_phone_Some in Hfind as (Hi & Hv & Hbefore).
  exists (take i ps), (drop (S i) ps). repeat split.
  - symmetry. now apply take_drop_middle.
  - apply length_take_le. apply lookup_lt_Some in Hi. lia.
  - assumption.
  - apply Forall_lookup. intros j y Hj.
    apply lookup_take_Some in Hj as [Hj Hlt]. now apply (Hbefore j).
Qed.

Lemma first_phone_In (v : str) (ps : list Phone) :
  In v (map value ps) -> exists (i : nat) (ph : Phone), first_phone v ps = Some (i, ph).
Proof.
  intros Hin. destruct (first_phone v ps) as [[i ph]|] eqn:Hfind; [eauto|].
  exfalso. apply first_phone_None in Hfind.
  apply in_map_iff in Hin as (q & Hv & Hin).
  rewrite Forall_forall in Hfind. apply list_elem_of_In in Hin.
  now apply (Hfind q Hin).
Qed.

Lemma find_phone_Some (self : ContactRecord) (v : str) (ph : Phone) :
  find_phone self v = Some ph -> value ph = v /\ In ph (phones self).
Proof.
  unfold find_phone. intros Hfind.
  destruct (first_phone v (phones self)) as [[i q]|] eqn:Hq; [|discriminate].
  injection Hfind as ->.
  apply first_phone_Some in Hq as (Hi & Hv & _). split; [assumption|].
  apply list_elem_of_In. eapply list_elem_of_lookup_2. exact Hi.
Qed.

Lemma find_phone_None (self : ContactRecord) (v : str) :
  find_phone self v = None <-> ~ In v (map value (phones self)).
Proof.
  unfold find_phone. split.
  - intros Hnone Hin. apply first_phone_In in Hin as (i & ph & Hfind).
    rewrite Hfind in Hnone. discriminate.
  - intros Hnot. destruct (first_phone v (phones self)) as [[i q]|] eqn:Hq;
      [|reflexivity].
    exfalso. apply Hnot. apply first_phone_Some in Hq as (Hi & Hv & _).
    apply in_map_iff. exists q. split; [assumption|].
    apply list_elem_of_In. eapply list_elem_of_lookup_2. exact Hi.
Qed.

Lemma edit_phone_at (self : ContactRecord) (old new : str) (i : nat) (ph : Phone) :
  is_phone_valid new = true ->
  first_phone old (phones self) = Some (i, ph) ->
  exists pre post : list Phone,
    phones self = pre ++ ph :: post
    /\ value ph = old
    /\ Forall (fun p : Phone => value p <> old) pre
    /\ edit_phone self old new
       = mkRecord (name self) (pre ++ mkField new :: post) (birthday self).
Proof.
  intros Hnew Hfind.
  destruct (first_phone_split _ _ _ _ Hfind) as (pre & post & Hps & Hlen & Hv & Hpre).
  exists pre, post. repeat split; try assumption.
  unfold edit_phone. rewrite Hnew, Hfind. unfold set_phones. f_equal.
  rewrite Hps, <- Hlen. now rewrite insert_app_r_alt, Nat.sub_diag by lia.
Qed.

(** X1.  [remove_phone] deletes the first phone whose value is the given
    one and keeps every other phone in its place, the name and the
    birthday; when no phone has the value the record is unchanged. *)
Theorem remove_phone_removes_first (self : ContactRecord) (v : str) :
  (Forall (fun p : Phone => value p <> v) (phones self)
   /\ remove_phone self v = self)
  \/ (exists (pre post : list Phone) (ph : Phone),
        phones self = pre ++ ph :: post
        /\ value ph = v
        /\ Forall (fun p : Phone => value p <> v) pre
        /\ remove_phone self v = mkRecord (name self) (pre ++ post) (birthday self)).
Proof.
  destruct (first_phone v (phones self)) as [[i ph]|] eqn:Hfind.
  - right. destruct (first_phone_split _ _ _ _ Hfind) as (pre & post & Hps & Hlen & Hv & Hpre).
    exists pre, post, ph. repeat split; try assumption.
    unfold remove_phone. rewrite Hfind. unfold set_phones. f_equal.
    rewrite Hps, <- Hlen. now rewrite delete_middle.
  - left. pose proof Hfind as Hnone. apply first_phone_None in Hnone.
    split; [assumption|]. unfold remove_phone. now rewrite Hfind.
Qed.

(** X2.  [edit_phone] changes nothing when [is_phone_valid] rejects the new
    value or no phone has the old value; otherwise it puts the new value in
    the place of the first phone with the old value and keeps every other
    phone, the name and the birthday. *)
Theorem edit_phone_replaces_first (self : ContactRecord) (old new : str) :
  (is_phone_valid new = false /\ edit_phone self old new = self)
  \/ (is_phone_valid new = true
      /\ Forall (fun p : Phone => value p <> old) (phones self)
      /\ edit_phone self old new = self)
  \/ (is_phone_valid new = true
      /\ exists (pre post : list Phone) (ph : Phone),
           phones self = pre ++ ph :: post
           /\ value ph = old
           /\ Forall (fun p : Phone => value p <> old) pre
           /\ edit_phone self old new
              = mkRecord (name self) (pre ++ mkField new :: post) (birthday self)).
Proof.
  destruct (is_phone_valid new) eqn:Hnew.
  - right. destruct (first_phone old (phones self)) as [[i ph]|] eqn:Hfind.
    + right. split; [reflexivity|].
      destruct (edit_phone_at _ _ _ _ _ Hnew Hfind) as (pre & post & H).
      now exists pre, post, ph.
    + left. pose proof Hfind as Hnone. apply first_phone_None in Hnone.
      repeat split; try assumption. now apply edit_phone_missing.
  - left. split; [reflexivity|]. now apply edit_phone_rejected.
Qed.

Lemma record_step_name (self : ContactRecord) (c : record_call) :
  name (record_step self c) = name self.
Proof.
  destruct c as [p|p|o n|v]; simpl.
  - unfold add_phone. destruct (is_phone_valid p); simpl;
      destruct (phones self); simpl; try reflexivity;
      now destruct (_ ++ _).
  - unfold remove_phone. now destruct (first_phone p (phones self)) as [[i ph]|].
  - unfold edit_phone. destruct (is_phone_valid n); [|reflexivity].
    now destruct (first_phone o (phones self)) as [[i ph]|].
  - unfold add_birthday. destruct (Birthday_init v) as [b|[msg|msg]]; reflexivity.
Qed.

Lemma record_step_checked (self : ContactRecord) (c : record_call) :
  phones_checked self -> phones_checked (record_step self c).
Proof.
  intros Hinv. destruct c as [p|p|o n|v]; simpl.
  - now apply add_phone_checked.
  - now apply remove_phone_checked.
  - now apply edit_phone_checked.
  - unfold add_birthday. destruct (Birthday_init v) as [b|[msg|msg]]; assumption.
Qed.

(** X3.  Whatever calls of [add_phone], [remove_phone], [edit_phone] and
    [add_birthday] are made on a new record, its name stays the one it was
    built with and every phone it holds has ten characters, all of them
    numeric for [str.isnumeric]. *)
Theorem record_calls_keep_name_and_checked_phones
    (nm : str) (bd : option Birthday) (cs : list record_call) :
  value (name (record_after (Record_init nm bd) cs)) = nm
  /\ Forall (fun p : Phone =>
               PyStr.len (value p) = 10 /\ PyStr.isnumeric (value p) = true)
            (phones (record_after (Record_init nm bd) cs)).
Proof.
  unfold record_after.
  assert (Hgen : forall self,
             phones_checked self ->
             name (fold_left record_step cs self) = name self
             /\ phones_checked (fold_left record_step cs self)).
  { induction cs as [|c cs IH]; intros self Hinv; simpl; [now split|].
    destruct (IH (record_step self c) (record_step_checked _ _ Hinv)) as [Hn Hc].
    split; [|assumption]. now rewrite Hn, record_step_name. }
  destruct (Hgen (Record_init nm bd) (Record_init_checked nm bd)) as [Hn Hc].
  split; [now rewrite Hn|].
  unfold phones_checked, is_phone_valid in Hc.
  eapply Forall_impl; [exact Hc|]. intros p Hp. cbn beta in Hp.
  apply andb_true_iff in Hp as [Hlen Hnum]. apply Z.eqb_eq in Hlen. now split.
Qed.

(** X4.  [find_phone] returns a phone of the record whose value is the one
    asked for, and it returns [None] exactly when no phone of the record
    has that value. *)
Theorem find_phone_finds (self : ContactRecord) (v : str) :
  (forall ph : Phone,
      find_phone self v = Some ph -> value ph = v /\ In ph (phones self))
  /\ (find_phone self v = None <-> ~ In v (map value (phones self))).
Proof.
  split.
  - intros ph. apply find_phone_Some.
  - apply find_phone_None.
Qed.

(** X5.  Adding a phone that the check accepts and that the record does
    not hold yet, and removing it again, gives the record back. *)
Theorem remove_phone_undoes_add_phone (self : ContactRecord) (p : str) :
  is_phone_valid p = true ->
  ~ In p (map value (phones self)) ->
  remove_phone (fst (add_phone self p)) p = self.
Proof.
  intros Hp Hnew. rewrite add_phone_accepted by assumption. cbn [fst].
  assert (Hfind : first_phone p (phones self ++ [mkField p])
                  = Some (length (phones self), mkField p)).
  { apply first_phone_Some. repeat split.
    - now rewrite lookup_app_r, Nat.sub_diag by lia.
    - intros j y Hj Hlt Hv. apply Hnew. apply in_map_iff. exists y.
      split; [assumption|]. apply list_elem_of_In.
      rewrite lookup_app_l in Hj by assumption.
      eapply list_elem_of_lookup_2. exact Hj. }
  unfold remove_phone. cbn [phones set_phones]. rewrite Hfind.
  rewrite delete_middle, app_nil_r. now destruct self.
Qed.

Lemma remove_phone_undoes_add_phone_witness :
  remove_phone (fst (add_phone ann (PyStr.lit "1234567890"))) (PyStr.lit "1234567890")
  = ann.
Proof.
  apply (remove_phone_undoes_add_phone ann (PyStr.lit "1234567890")).
  - reflexivity.
  - simpl. tauto.
Defined.

(** X6.  After [edit_phone] with a new value that the check accepts and an
    old value that the record holds, [find_phone] finds the new value and
    the record has as many phones as before. *)
Theorem find_phone_after_edit_phone (self : ContactRecord) (old new : str) :
  is_phone_valid new = true ->
  In old (map value (phones self)) ->
  (exists ph : Phone,
      find_phone (edit_phone self old new) new = Some ph /\ value ph = new)
  /\ length (phones (edit_phone self old new)) = length (phones self).
Proof.
  intros Hnew Hold.
  apply first_phone_In in Hold as (i & ph & Hfind).
  destruct (edit_phone_at _ _ _ _ _ Hnew Hfind) as (pre & post & Hps & _ & _ & Hedit).
  rewrite Hedit, Hps. cbn [phones]. split.
  - destruct (find_phone (mkRecord (name self) (pre ++ mkField new :: post) (birthday self)) new)
      as [q|] eqn:Hq.
    + exists q. split; [reflexivity|]. now apply find_phone_Some in Hq.
    + exfalso. apply find_phone_None in Hq. apply Hq. cbn [phones].
      rewrite map_app. apply in_or_app. right. now left.
  - rewrite !length_app. reflexivity.
Qed.

Lemma find_phone_after_edit_phone_witness :
  (exists ph : Phone,
      find_phone (edit_phone john3 (PyStr.lit "1234567890") (PyStr.lit "0987654321"))
                 (PyStr.lit "0987654321") = Some ph
      /\ value ph = PyStr.lit "0987654321")
  /\ length (phones (edit_phone john3 (PyStr.lit "1234567890") (PyStr.lit "0987654321")))
     = length (phones john3).
Proof.
  apply (find_phone_after_edit_phone john3 (PyStr.lit "1234567890")
           (PyStr.lit "0987654321")).
  - reflexivity.
  - left. reflexivity.
Defined.

(** ** The ledger *)

Lemma dict_get_set_other (self : AddressBook.t) (k k' : str) (v : ContactRecord) :
  k <> k' -> dict_get (dict_set self k v) k' = dict_get self k'.
Proof.
  intros Hne. pose proof (proj2 (eqb_false k k') Hne) as Hb.
  induction self as [|[k0 v0] rest IH]; simpl.
  - now rewrite Hb.
  - destruct (PyStr.eqb k0 k) eqn:Hk; simpl.
    + apply eqb_true in Hk. subst k0. now rewrite Hb.
    + now rewrite IH.
Qed.

Lemma dict_set_same (self : AddressBook.t) (k : str) (v : ContactRecord) :
  dict_get self k = Some v -> dict_set self k v = self.
Proof.
  induction self as [|[k0 v0] rest IH]; simpl; [discriminate|].
  destruct (PyStr.eqb k0 k) eqn:Hk.
  - now intros [= ->].
  - intros Hget. now rewrite IH.
Qed.

Lemma keys_filter_absent (ks : list str) (k : str) :
  ~ In k ks -> List.filter (fun x => negb (PyStr.eqb x k)) ks = ks.
Proof.
  induction ks as [|x ks IH]; simpl; [reflexivity|]. intros Hnot.
  destruct (PyStr.eqb x k) eqn:Hx.
  - apply eqb_true in Hx. tauto.
  - simpl. rewrite IH; [reflexivity | tauto].
Qed.

Lemma keys_dict_pop (self : AddressBook.t) (k : str) :
  wf self ->
  keys (dict_pop self k) = List.filter (fun x => negb (PyStr.eqb x k)) (keys self).
Proof.
  unfold wf, keys. induction self as [|[k0 v0] rest IH]; simpl; [reflexivity|].
  intros Hwf. apply NoDup_cons in Hwf as [Hhead Hrest].
  destruct (PyStr.eqb k0 k) eqn:Hk; simpl.
  - apply eqb_true in Hk. subst k0. symmetry. apply keys_filter_absent.
    now rewrite <- list_elem_of_In.
  - now rewrite IH.
Qed.

Lemma dict_get_pop (self : AddressBook.t) (k k' : str) :
  wf self ->
  dict_get (dict_pop self k) k' = if PyStr.eqb k k' then None else dict_get self k'.
Proof.
  unfold wf, keys. induction self as [|[k0 v0] rest IH]; simpl; intros Hwf.
  - now destruct (PyStr.eqb k k').
  - apply NoDup_cons in Hwf as [Hhead Hrest].
    destruct (PyStr.eqb k0 k) eqn:Hk.
    + apply eqb_true in Hk. subst k0.
      destruct (PyStr.eqb k k') eqn:Hk'; [|reflexivity].
      apply eqb_true in Hk'. subst k'. apply dict_get_absent.
      now rewrite <- list_elem_of_In.
    + simpl. destruct (PyStr.eqb k0 k') eqn:Hk0.
      * apply eqb_true in Hk0. subst k0.
        destruct (PyStr.eqb k k') eqn:E; [|reflexivity].
        apply eqb_true in E. subst k'. rewrite eqb_refl in Hk. discriminate.
      * now apply IH.
Qed.

Lemma NoDup_filter_keys (ks : list str) (p : str -> bool) :
  NoDup ks -> NoDup (List.filter p ks).
Proof.
  induction 1 as [|x ks Hx Hks IH]; simpl; [constructor|].
  destruct (p x); [|assumption]. constructor; [|assumption].
  rewrite list_elem_of_In, filter_In. rewrite list_elem_of_In in Hx. tauto.
Qed.

Lemma wf_delete (self : AddressBook.t) (k : str) : wf self -> wf (delete self k).
Proof.
  intros Hwf. unfold delete. destruct (contains self k); [|assumption].
  unfold wf. rewrite keys_dict_pop by assumption. now apply NoDup_filter_keys.
Qed.

(** X7.  After [add_record], [find] returns the added record under its
    name and, under every other name, what it returned before. *)
Theorem find_after_add_record (book : AddressBook.t) (r : ContactRecord) (k : str) :
  find (add_record book r) k
  = if PyStr.eqb (value (name r)) k then Some r else find book k.
Proof.
  unfold find, add_record. destruct (PyStr.eqb (value (name r)) k) eqn:Hk.
  - apply eqb_true in Hk. subst k. apply dict_get_set.
  - apply eqb_false in Hk. now apply dict_get_set_other.
Qed.

(** X8.  In a ledger with one entry per name, after [delete] the name is
    not found any more, every other name is found as before, and the
    remaining names keep their order. *)
Theorem find_after_delete (book : AddressBook.t) (nm : str) :
  wf book ->
  find (delete book nm) nm = None
  /\ (forall k : str, k <> nm -> find (delete book nm) k = find book k)
  /\ keys (delete book nm) = List.filter (fun x => negb (PyStr.eqb x nm)) (keys book)
  /\ wf (delete book nm).
Proof.
  intros Hwf. unfold find, delete.
  destruct (contains book nm) eqn:Hc.
  - repeat split.
    + rewrite dict_get_pop by assumption. now rewrite eqb_refl.
    + intros k Hk. rewrite dict_get_pop by assumption.
      assert (Hne : nm <> k) by congruence.
      now rewrite (proj2 (eqb_false nm k) Hne).
    + now apply keys_dict_pop.
    + unfold wf. rewrite keys_dict_pop by assumption. now apply NoDup_filter_keys.
  - assert (Habsent : ~ In nm (keys book)).
    { intros Hin. apply contains_In in Hin. congruence. }
    repeat split.
    + now apply dict_get_absent.
    + symmetry. now apply keys_filter_absent.
    + assumption.
Qed.

Lemma find_after_delete_witness :
  find (delete sample_book (PyStr.lit "Lea")) (PyStr.lit "Lea") = None
  /\ (forall k : str,
         k <> PyStr.lit "Lea" ->
         find (delete sample_book (PyStr.lit "Lea")) k = find sample_book k)
  /\ keys (delete sample_book (PyStr.lit "Lea"))
     = List.filter (fun x => negb (PyStr.eqb x (PyStr.lit "Lea"))) (keys sample_book)
  /\ wf (delete sample_book (PyStr.lit "Lea")).
Proof.
  apply (find_after_delete sample_book (PyStr.lit "Lea")).
  unfold wf. apply (bool_decide_unpack _). vm_compute. exact I.
Defined.

Lemma ledger_step_invariant (self : AddressBook.t) (c : ledger_call) :
  wf self /\ Forall (fun kv => fst kv = entry_name kv) self ->
  wf (ledger_step self c)
  /\ Forall (fun kv => fst kv = entry_name kv) (ledger_step self c).
Proof.
  intros [Hwf Hkeys]. destruct c as [r|nm]; simpl.
  - split; [now apply wf_add_record|].
    unfold add_record. clear Hwf.
    induction self as [|[k0 v0] rest IH]; simpl.
    + now repeat constructor.
    + apply Forall_cons in Hkeys as [Hhead Hrest].
      destruct (PyStr.eqb k0 (value (name r))) eqn:Hk.
      * apply eqb_true in Hk. constructor; [exact Hk | assumption].
      * constructor; [assumption | now apply IH].
  - split; [now apply wf_delete|].
    unfold delete. destruct (contains self nm); [|assumption]. clear Hwf.
    induction self as [|[k0 v0] rest IH]; simpl; [constructor|].
    apply Forall_cons in Hkeys as [Hhead Hrest].
    destruct (PyStr.eqb k0 nm); [assumption|].
    constructor; [assumption | now apply IH].
Qed.

(** X9.  A ledger built from the empty one by calls of [add_record] and
    [delete] holds at most one entry per name, and every entry is stored
    under the name of its record. *)
Theorem ledger_calls_keep_one_entry_per_name (cs : list ledger_call) :
  NoDup (keys (ledger_after AddressBook.empty cs))
  /\ Forall (fun kv => fst kv = value (name (snd kv)))
            (ledger_after AddressBook.empty cs).
Proof.
  unfold ledger_after.
  assert (Hgen : forall self,
             wf self /\ Forall (fun kv => fst kv = entry_name kv) self ->
             wf (fold_left ledger_step cs self)
             /\ Forall (fun kv => fst kv = entry_name kv) (fold_left ledger_step cs self)).
  { induction cs as [|c cs IH]; intros self Hinv; simpl; [assumption|].
    apply IH. now apply ledger_step_invariant. }
  apply Hgen. split; [apply NoDup_nil_2 | constructor].
Qed.

(** X10.  Adding a record under a name that the ledger does not hold and
    deleting that name again gives the ledger back. *)
Theorem delete_undoes_add_record (book : AddressBook.t) (r : ContactRecord) :
  ~ In (value (name r)) (keys book) ->
  delete (add_record book r) (value (name r)) = book.
Proof.
  intros Hnew. unfold delete, add_record.
  assert (Hc : contains (dict_set book (value (name r)) r) (value (name r)) = true).
  { apply contains_In. rewrite keys_dict_set.
    destruct (contains book (value (name r))) eqn:Hc0;
      [|apply in_or_app; right; now left].
    apply contains_In in Hc0. contradiction. }
  rewrite Hc. clear Hc.
  induction book as [|[k0 v0] rest IH]; simpl.
  - now rewrite eqb_refl.
  - destruct (PyStr.eqb k0 (value (name r))) eqn:Hk.
    + apply eqb_true in Hk. simpl in Hnew. tauto.
    + simpl. rewrite Hk. f_equal. apply IH. simpl in Hnew. tauto.
Qed.

Lemma delete_undoes_add_record_witness :
  delete (add_record sample_book ann) (value (name ann)) = sample_book.
Proof.
  apply (delete_undoes_add_record sample_book ann).
  vm_compute. intros [H|[H|[H|[]]]]; discriminate H.
Defined.

(** ** Dates in order *)

Section DateOrder.

Local Ltac divmod := Z.div_mod_to_equations; lia.

Local Ltac tables :=
  repeat match goal with
         | |- context [item ?t ?i] =>
             let v := eval vm_compute in (item t i) in change (item t i) with v
         | H : context [item ?t ?i] |- _ =>
             let v := eval vm_compute in (item t i) in change (item t i) with v in H
         end;
  cbn in *.

Lemma days_before_year_succ (y : Z) :
  days_before_year (y + 1)
  = days_before_year y + 365 + (if is_leap y then 1 else 0).
Proof.
  unfold days_before_year, is_leap. cbv zeta.
  destruct (y mod 4 =? 0) eqn:E4; destruct (y mod 100 =? 0) eqn:E100;
    destruct (y mod 400 =? 0) eqn:E400; cbn [andb orb negb];
    rewrite ?Z.eqb_eq, ?Z.eqb_neq in *; divmod.
Qed.

Lemma days_before_year_mono (y1 y2 : Z) :
  y1 <= y2 -> days_before_year y1 <= days_before_year y2.
Proof. unfold days_before_year. cbv zeta. intros Hy. divmod. Qed.

(** The days of a month end before the next month begins. *)
Lemma days_before_month_next (y m1 m2 d : Z) :
  1 <= m1 -> m1 < m2 -> m2 <= 12 -> d <= days_in_month y m1 ->
  days_before_month y m1 + d <= days_before_month y m2.
Proof.
  intros H1 H12 H2 Hd. unfold days_before_month, days_in_month in *.
  assert (Hm1 : 1 <= m1 <= 12) by lia. assert (Hm2 : 1 <= m2 <= 12) by lia.
  apply month_cases in Hm1. apply month_cases in Hm2.
  repeat destruct Hm1 as [-> | Hm1]; try subst m1;
    repeat destruct Hm2 as [-> | Hm2]; try subst m2;
    try lia; destruct (is_leap y); tables; lia.
Qed.

Lemma toordinal_lt (a b : date) :
  valid_date a = true -> valid_date b = true ->
  date_ltb a b = true -> toordinal a < toordinal b.
Proof.
  intros Ha Hb Hlt.
  apply valid_date_fields in Ha as (Hya & Hma & Hda).
  apply valid_date_fields in Hb as (Hyb & Hmb & Hdb).
  pose proof (days_before_month_bounds _ _ _ Hma Hda) as Hina.
  pose proof (days_before_month_bounds _ _ _ Hmb Hdb) as Hinb.
  unfold date_ltb in Hlt. unfold toordinal, ymd2ord.
  destruct (year a <? year b) eqn:Ey.
  - apply Z.ltb_lt in Ey.
    pose proof (days_before_year_succ (year a)) as Hs.
    pose proof (days_before_year_mono (year a + 1) (year b) ltac:(lia)) as Hm.
    lia.
  - cbn [orb] in Hlt. apply andb_true_iff in Hlt as [Ey' Hlt].
    apply Z.eqb_eq in Ey'. rewrite Ey' in *.
    destruct (month a <? month b) eqn:Em.
    + apply Z.ltb_lt in Em.
      pose proof (days_before_month_next (year b) (month a) (month b) (day a)
                    ltac:(lia) Em ltac:(lia) ltac:(lia)).
      lia.
    + cbn [orb] in Hlt. apply andb_true_iff in Hlt as [Em' Hlt].
      apply Z.eqb_eq in Em'. apply Z.ltb_lt in Hlt. rewrite Em'. lia.
Qed.

Lemma date_ltb_total (a b : date) :
  date_ltb a b = false -> a = b \/ date_ltb b a = true.
Proof.
  unfold date_ltb. intros H. destruct a as [ya ma da], b as [yb mb db]. cbn in *.
  destruct (Z.lt_total ya yb) as [Hy|[Hy|Hy]];
    destruct (Z.lt_total ma mb) as [Hm|[Hm|Hm]];
    destruct (Z.lt_total da db) as [Hd|[Hd|Hd]];
    try (left; congruence);
    try (right; lia); exfalso; lia.
Qed.

Lemma toordinal_le (a b : date) :
  valid_date a = true -> valid_date b = true ->
  date_ltb a b = false -> toordinal b <= toordinal a.
Proof.
  intros Ha Hb Hge. destruct (date_ltb_total a b Hge) as [->|Hlt]; [lia|].
  pose proof (toordinal_lt b a Hb Ha Hlt). lia.
Qed.

(** The same month and day one year on is 365 or 366 days later. *)
Lemma toordinal_next_year (y m d : Z) :
  1 <= m <= 12 ->
  365 <= ymd2ord (y + 1) m d - ymd2ord y m d <= 366.
Proof.
  intros Hm. unfold ymd2ord, days_before_month.
  rewrite days_before_year_succ.
  destruct (2 <? m); destruct (is_leap y); destruct (is_leap (y + 1));
    cbn [andb]; lia.
Qed.

Lemma leap_year_then_common (y : Z) : is_leap y = true -> is_leap (y + 1) = false.
Proof.
  unfold is_leap. intros H. apply andb_true_iff in H as [H4 _].
  apply Z.eqb_eq in H4.
  replace ((y + 1) mod 4 =? 0) with false; [reflexivity|].
  symmetry. apply Z.eqb_neq. divmod.
Qed.

End DateOrder.

(** ** The candidate date and the query *)

(** X11.  [adjust_for_weekend] on a date of the calendar returns the first
    day on or after it that is no Saturday and no Sunday: at most two days
    later, with only weekend days in between; applied again it changes
    nothing. *)
Theorem adjust_for_weekend_next_working_day (d : date) :
  valid_date d = true ->
  exists r : date,
    adjust_for_weekend d = Ok r
    /\ valid_date r = true
    /\ toordinal d <= toordinal r <= toordinal d + 2
    /\ weekend_ordinal (toordinal r) = false
    /\ (forall o : Z, toordinal d <= o < toordinal r -> weekend_ordinal o = true)
    /\ adjust_for_weekend r = Ok r.
Proof.
  intros Hd. pose proof (weekday_range d) as Hwd.
  destruct (adjust_for_weekend_spec d Hd)
    as (r & Hr & Hvalid & Hsat & Hsun & Hweek & Hno5 & Hno6).
  pose proof (weekday_range r) as Hwr.
  assert (Hfree : weekend_ordinal (toordinal r) = false).
  { unfold weekend_ordinal, WEEKEND_DAYS. cbn [existsb]. fold (weekday r).
    apply orb_false_iff. split; [now apply Z.eqb_neq|].
    apply orb_false_iff. split; [now apply Z.eqb_neq | reflexivity]. }
  exists r. repeat split; try assumption.
  - destruct (Z.eq_dec (weekday d) 5) as [E5|N5]; [destruct (Hsat E5); lia|].
    destruct (Z.eq_dec (weekday d) 6) as [E6|N6]; [destruct (Hsun E6); lia|].
    rewrite (Hweek N5 N6). lia.
  - destruct (Z.eq_dec (weekday d) 5) as [E5|N5]; [destruct (Hsat E5); lia|].
    destruct (Z.eq_dec (weekday d) 6) as [E6|N6]; [destruct (Hsun E6); lia|].
    rewrite (Hweek N5 N6). lia.
  - intros o Ho. unfold weekend_ordinal, WEEKEND_DAYS. cbn [existsb].
    unfold weekday in *.
    destruct (Z.eq_dec ((toordinal d + 6) mod 7) 5) as [E5|N5].
    + destruct (Hsat E5) as [_ Hord].
      assert (Hcase : (o + 6) mod 7 = 5 \/ (o + 6) mod 7 = 6)
        by (Z.div_mod_to_equations; lia).
      destruct Hcase as [-> | ->]; reflexivity.
    + destruct (Z.eq_dec ((toordinal d + 6) mod 7) 6) as [E6|N6].
      * destruct (Hsun E6) as [_ Hord].
        assert (Hcase : (o + 6) mod 7 = 6) by (Z.div_mod_to_equations; lia).
        rewrite Hcase. reflexivity.
      * rewrite (Hweek N5 N6) in Ho. lia.
  - unfold adjust_for_weekend, WEEKEND_DAYS. cbn [existsb].
    apply Z.eqb_neq in Hno5, Hno6. now rewrite Hno5, Hno6.
Qed.

Lemma adjust_for_weekend_next_working_day_witness :
  exists r : date,
    adjust_for_weekend (mkdate 2024 6 15) = Ok r
    /\ valid_date r = true
    /\ toordinal (mkdate 2024 6 15) <= toordinal r <= toordinal (mkdate 2024 6 15) + 2
    /\ weekend_ordinal (toordinal r) = false
    /\ (forall o : Z,
           toordinal (mkdate 2024 6 15) <= o < toordinal r -> weekend_ordinal o = true)
    /\ adjust_for_weekend r = Ok r.
Proof.
  apply (adjust_for_weekend_next_working_day (mkdate 2024 6 15)). reflexivity.
Defined.

(** X12.  The candidate date has the month and the day of the birthday and
    the year of [today] or the next one; it is never before [today] and at
    most 365 days after it, so the lower bound of the window test excludes
    nobody. *)
Theorem birthday_this_year_is_next_occurrence
    (today : date) (b : Birthday) (c : date) :
  valid_date today = true ->
  birthday_this_year today b = Ok c ->
  month c = month (date_of (value b))
  /\ day c = day (date_of (value b))
  /\ (year c = year today \/ year c = year today + 1)
  /\ date_ltb c today = false
  /\ 0 <= days_between c today <= 365.
Proof.
  intros Htoday Hc. pose proof (birthday_this_year_valid _ _ _ Hc) as Hvalid.
  unfold birthday_this_year, replace_year in Hc.
  destruct (date_new (year today) (month (date_of (value b))) (day (date_of (value b))))
    as [c0|e] eqn:H0; [|discriminate].
  cbn [bind] in Hc. apply date_new_Ok in H0 as [-> Hv0].
  pose proof (toordinal_bounds today Htoday) as Hbt.
  pose proof Htoday as Hft. apply valid_date_fields in Hft as (Hyt & Hmt & Hdt).
  pose proof (days_before_month_bounds _ _ _ Hmt Hdt) as Hint.
  pose proof Hv0 as Hf0. apply valid_date_fields in Hf0 as (Hy0 & Hm0 & Hd0).
  cbn [year month day] in Hy0, Hm0, Hd0.
  pose proof (days_before_month_bounds _ _ _ Hm0 Hd0) as Hin0.
  destruct (date_ltb _ today) eqn:Hlt.
  - cbn [month day] in Hc. apply date_new_Ok in Hc as [-> Hv1].
    cbn [year month day].
    pose proof (toordinal_lt _ _ Hv0 Htoday Hlt) as Hpast.
    pose proof (toordinal_next_year (year today) (month (date_of (value b)))
                  (day (date_of (value b))) Hm0) as Hyear.
    pose proof (days_before_year_succ (year today)) as Hsucc.
    pose proof Hv1 as Hf1. apply valid_date_fields in Hf1 as (_ & Hm1 & Hd1).
    cbn [year month day] in Hm1, Hd1.
    pose proof (days_before_month_bounds _ _ _ Hm1 Hd1) as Hin1.
    unfold days_between, toordinal, ymd2ord in *. cbn [year month day] in *.
    split; [reflexivity|]. split; [reflexivity|]. split; [now right|].
    split; [|lia].
    unfold date_ltb. cbn [year month day].
    replace (year today + 1 <? year today) with false by (symmetry; apply Z.ltb_ge; lia).
    replace (year today + 1 =? year today) with false by (symmetry; apply Z.eqb_neq; lia).
    reflexivity.
  - injection Hc as <-. cbn [year month day].
    pose proof (toordinal_le _ _ Hv0 Htoday Hlt) as Hfuture.
    unfold days_between, toordinal, ymd2ord in *. cbn [year month day] in *.
    split; [reflexivity|]. split; [reflexivity|]. split; [now left|].
    split; [assumption|].
    destruct (is_leap (year today)); lia.
Qed.

Lemma birthday_this_year_is_next_occurrence_witness :
  month (mkdate 2025 6 9) = month (date_of (value (mkField (mkdatetime (mkdate 1980 6 9) 0 0 0 0))))
  /\ day (mkdate 2025 6 9) = day (date_of (value (mkField (mkdatetime (mkdate 1980 6 9) 0 0 0 0))))
  /\ (year (mkdate 2025 6 9) = year monday_10_06_2024
      \/ year (mkdate 2025 6 9) = year monday_10_06_2024 + 1)
  /\ date_ltb (mkdate 2025 6 9) monday_10_06_2024 = false
  /\ 0 <= days_between (mkdate 2025 6 9) monday_10_06_2024 <= 365.
Proof.
  apply (birthday_this_year_is_next_occurrence monday_10_06_2024
           (mkField (mkdatetime (mkdate 1980 6 9) 0 0 0 0)) (mkdate 2025 6 9)).
  - reflexivity.
  - reflexivity.
Defined.

(** X13.  For a birthday on 29 February the candidate date exists only
    while [today] is in a leap year and not after its 29 February; on every
    other day [birthday_this_year] raises. *)
Theorem feb29_candidate_exists_iff (today : date) (b : Birthday) :
  valid_date today = true ->
  month (date_of (value b)) = 2 ->
  day (date_of (value b)) = 29 ->
  (exists c : date, birthday_this_year today b = Ok c)
  <-> is_leap (year today) = true
      /\ date_ltb (mkdate (year today) 2 29) today = false.
Proof.
  intros Htoday Hm Hd.
  pose proof Htoday as Hft. apply valid_date_fields in Hft as (Hyt & _ & _).
  unfold birthday_this_year.
  destruct (is_leap (year today)) eqn:Hleap.
  - assert (H0 : replace_year (date_of (value b)) (year today)
                 = Ok (mkdate (year today) 2 29)).
    { unfold replace_year. rewrite Hm, Hd. apply date_new_Ok. split; [reflexivity|].
      apply valid_date_fields. cbn [year month day]. unfold days_in_month.
      rewrite Hleap. cbn. lia. }
    rewrite H0. cbn [bind].
    destruct (date_ltb (mkdate (year today) 2 29) today) eqn:Hlt.
    + split; [|intros [_ H]; discriminate H].
      intros (c & Hc). exfalso.
      destruct (feb29_replace_year (mkdate (year today) 2 29) (year today + 1)
                  eq_refl eq_refl (leap_year_then_common _ Hleap)) as (msg & Hrep & _).
      rewrite Hrep in Hc. discriminate.
    + split; [now intros _ | intros _; eauto].
  - destruct (feb29_replace_year (date_of (value b)) (year today) Hm Hd Hleap)
      as (msg & Hrep & _).
    rewrite Hrep. cbn [bind].
    split; [intros (c & Hc); discriminate Hc | intros [H _]; discriminate H].
Qed.

Lemma feb29_candidate_exists_iff_witness :
  (exists c : date,
      birthday_this_year (mkdate 2024 3 1)
        (mkField (mkdatetime (mkdate 2000 2 29) 0 0 0 0)) = Ok c)
  <-> is_leap (year (mkdate 2024 3 1)) = true
      /\ date_ltb (mkdate (year (mkdate 2024 3 1)) 2 29) (mkdate 2024 3 1) = false.
Proof.
  apply (feb29_candidate_exists_iff (mkdate 2024 3 1)
           (mkField (mkdatetime (mkdate 2000 2 29) 0 0 0 0))); reflexivity.
Defined.

Lemma upcoming_step_greeting_name (today : date) (contact : ContactRecord)
    (g : greeting) :
  upcoming_step today contact = Ok (Some g) ->
  greeting_name g = value (name contact).
Proof.
  unfold upcoming_step. destruct (birthday contact) as [b|]; [|discriminate].
  destruct (birthday_this_year today b) as [c|e]; [|discriminate]. cbn [bind].
  destruct (negb _); [discriminate|].
  destruct (adjust_for_weekend c) as [r|e]; [|discriminate]. cbn [bind].
  now intros [= <-].
Qed.

(** X14.  The greetings come in the order of the ledger, at most one for
    each entry, each under the name of its record. *)
Theorem upcoming_birthdays_in_ledger_order
    (today : date) (book : AddressBook.t) (res : list greeting) :
  get_upcoming_birthdays today book = Ok res ->
  sublist (map greeting_name res) (map entry_name book)
  /\ (length res <= length book)%nat.
Proof.
  revert res. induction book as [|[k contact] rest IH]; intros res Hres.
  - injection Hres as <-. split; [constructor | reflexivity].
  - rewrite get_upcoming_birthdays_cons in Hres.
    destruct (upcoming_step today contact) as [g|e] eqn:Hstep; [|discriminate].
    cbn [bind] in Hres.
    destruct (get_upcoming_birthdays today rest) as [gs|e]; [|discriminate].
    cbn [bind] in Hres. injection Hres as <-.
    destruct (IH gs eq_refl) as [Hsub Hlen].
    destruct g as [g|]; unfold option_list; cbn [option_rect app map length].
    + rewrite (upcoming_step_greeting_name _ _ _ Hstep).
      split; [now constructor | lia].
    + split; [now constructor | lia].
Qed.

Lemma upcoming_birthdays_in_ledger_order_witness :
  sublist (map greeting_name [mkGreeting (PyStr.lit "Sam") (PyStr.lit "17.06.2024");
                              mkGreeting (PyStr.lit "Mia") (PyStr.lit "17.06.2024")])
          (map entry_name sample_book)
  /\ (length [mkGreeting (PyStr.lit "Sam") (PyStr.lit "17.06.2024");
              mkGreeting (PyStr.lit "Mia") (PyStr.lit "17.06.2024")]
      <= length sample_book)%nat.
Proof.
  apply (upcoming_birthdays_in_ledger_order monday_10_06_2024 sample_book).
  vm_compute. reflexivity.
Defined.

(** X15.  Entries without a birthday do not take part in the query: it
    gives the same result, or raises the same exception, as on the ledger
    without them. *)
Theorem upcoming_birthdays_skip_unset (today : date) (book : AddressBook.t) :
  get_upcoming_birthdays today book
  = get_upcoming_birthdays today (List.filter has_birthday book).
Proof.
  induction book as [|[k contact] rest IH]; [reflexivity|].
  cbn [List.filter]. unfold has_birthday at 1. cbn [snd].
  destruct (birthday contact) as [b|] eqn:Hb.
  - rewrite !get_upcoming_birthdays_cons. now rewrite IH.
  - rewrite get_upcoming_birthdays_cons. unfold upcoming_step. rewrite Hb.
    cbn [bind]. rewrite <- IH.
    now destruct (get_upcoming_birthdays today rest).
Qed.

Lemma get_upcoming_birthdays_raises (today : date) (book : AddressBook.t) (e : exn) :
  get_upcoming_birthdays today book = Raise e -> exists msg : str, e = ValueError msg.
Proof.
  induction book as [|[k contact] rest IH]; [discriminate|].
  rewrite get_upcoming_birthdays_cons.
  destruct (upcoming_step today contact) as [g|e0] eqn:Hstep.
  - cbn [bind]. destruct (get_upcoming_birthdays today rest) as [gs|e1]; [discriminate|].
    cbn [bind]. intros [= <-]. now apply IH.
  - cbn [bind]. intros [= <-]. apply upcoming_step_raises in Hstep as (b & _ & Hraise).
    now apply birthday_this_year_raises in Hraise.
Qed.

(** X16.  The query raises nothing but the [ValueError] of a date that
    cannot be built: the shift to Monday never leaves the calendar. *)
Theorem upcoming_birthdays_raise_only_ValueError
    (today : date) (book : AddressBook.t) :
  match get_upcoming_birthdays today book with
  | Ok _ => True
  | Raise e => exists msg : str, e = ValueError msg
  end.
Proof.
  destruct (get_upcoming_birthdays today book) as [res|e] eqn:Hres; [exact I|].
  now apply (get_upcoming_birthdays_raises today book).
Qed.

(** ** The handlers of the command line *)

Lemma dict_get_In (self : AddressBook.t) (k : str) :
  In k (keys self) -> exists v : ContactRecord, dict_get self k = Some v.
Proof.
  unfold keys. induction self as [|[k0 v0] rest IH]; simpl; [tauto|].
  intros Hin. destruct (PyStr.eqb k0 k) eqn:Hk; [eauto|].
  destruct Hin as [Heq|Hin]; [|now apply IH].
  apply eqb_false in Hk. congruence.
Qed.

Lemma dict_get_entry (self : AddressBook.t) (k : str) (v : ContactRecord) :
  wf self -> In (k, v) self -> dict_get self k = Some v.
Proof.
  unfold wf, keys. induction self as [|[k0 v0] rest IH]; simpl; [tauto|].
  intros Hwf Hin. apply NoDup_cons in Hwf as [Hhead Hrest].
  destruct Hin as [[= -> ->]|Hin].
  - now rewrite eqb_refl.
  - destruct (PyStr.eqb k0 k) eqn:Hk; [|now apply IH].
    apply eqb_true in Hk. subst k0. exfalso. apply Hhead.
    apply list_elem_of_In. apply in_map_iff. now exists (k, v).
Qed.

Lemma unpack2_arity (args : list str) :
  length args <> 2%nat ->
  exists msg : str, Bot.unpack2 args = Bot.Throw (Bot.Std (ValueError msg)).
Proof.
  destruct args as [|a [|b [|c rest]]]; cbn; intros H;
    try (exfalso; apply H; reflexivity); eexists; reflexivity.
Qed.

Lemma unpack3_arity (args : list str) :
  length args <> 3%nat ->
  exists msg : str, Bot.unpack3 args = Bot.Throw (Bot.Std (ValueError msg)).
Proof.
  destruct args as [|a [|b [|c [|d rest]]]]; cbn; intros H;
    try (exfalso; apply H; reflexivity); eexists; reflexivity.
Qed.

Lemma add_phone_name_init (nm phone : str) :
  value (name (fst (add_phone (Record_init nm None) phone))) = nm.
Proof. unfold add_phone. cbn. now destruct (is_phone_valid phone). Qed.

(** X17.  [add_contact] with a name and a phone always answers "Contact
    added." and stores under the name a new record with the phone alone,
    or with no phone when [is_phone_valid] rejects it, and no birthday: the
    phones and the birthday that the name had before are gone.  Other names
    are not touched. *)
Theorem add_contact_replaces_the_record
    (contacts : AddressBook.t) (nm phone : str) :
  exists contacts' : AddressBook.t,
    Bot.add_contact [nm; phone] contacts
    = Bot.Return (contacts', Bot.Text (PyStr.lit "Contact added."))
    /\ find contacts' nm
       = Some (mkRecord (mkField nm)
                        (if is_phone_valid phone then [mkField phone] else [])
                        None)
    /\ (forall k : str, k <> nm -> find contacts' k = find contacts k).
Proof.
  eexists. split; [reflexivity|]. unfold find, add_record. split.
  - cbn [name value Record_init]. rewrite add_phone_name_init, dict_get_set.
    f_equal. unfold add_phone, Record_init, set_phones. cbn.
    now destruct (is_phone_valid phone).
  - intros k Hk. rewrite add_phone_name_init. apply dict_get_set_other. congruence.
Qed.

(** X18.  With a wrong number of arguments [add_contact], [add_birthday]
    and [change_contact] answer "Give me your name and phone please." and
    leave the ledger as it is. *)
Theorem wrong_arity_is_answered (args : list str) (book : AddressBook.t) :
  (length args <> 2%nat ->
   Bot.add_contact args book = Bot.Return (book, Bot.Text Bot.NAME_AND_PHONE_MSG)
   /\ Bot.add_birthday args book = Bot.Return (book, Bot.Text Bot.NAME_AND_PHONE_MSG))
  /\ (length args <> 3%nat ->
      Bot.change_contact args book
      = Bot.Return (book, Bot.Text Bot.NAME_AND_PHONE_MSG)).
Proof.
  split.
  - intros H. destruct (unpack2_arity args H) as (msg & Hu).
    unfold Bot.add_contact, Bot.add_contact_func, Bot.add_birthday,
      Bot.add_birthday_func. rewrite Hu. split; reflexivity.
  - intros H. destruct (unpack3_arity args H) as (msg & Hu).
    unfold Bot.change_contact, Bot.change_contact_func. now rewrite Hu.
Qed.

(** X19.  [change_contact] answers "Contact updated." exactly when the
    name is in the ledger, whether or not a phone changed: the record of
    the name becomes what [edit_phone] makes of it, which is the record
    itself when the new phone is rejected or the old one is not there.
    For an unknown name the answer is "Contact not found.". *)
Theorem change_contact_answers_by_name
    (book : AddressBook.t) (nm old new : str) :
  (In nm (keys book) ->
   exists rec : ContactRecord,
     find book nm = Some rec
     /\ Bot.change_contact [nm; old; new] book
        = Bot.Return (dict_set book nm (edit_phone rec old new),
                      Bot.Text (PyStr.lit "Contact updated."))
     /\ (is_phone_valid new = false \/ ~ In old (map value (phones rec)) ->
         Bot.change_contact [nm; old; new] book
         = Bot.Return (book, Bot.Text (PyStr.lit "Contact updated."))))
  /\ (~ In nm (keys book) ->
      Bot.change_contact [nm; old; new] book
      = Bot.Return (book, Bot.Text (PyStr.lit "Contact not found."))).
Proof.
  unfold Bot.change_contact, Bot.change_contact_func. cbn [Bot.unpack3 Bot.and_then].
  split.
  - intros Hin. destruct (dict_get_In book nm Hin) as (rec & Hget).
    apply contains_In in Hin. exists rec.
    destruct book as [|e rest]; [discriminate Hin|].
    unfold find. rewrite Hin, Hget. cbn [Bot.input_error].
    split; [reflexivity|]. split; [reflexivity|].
    intros Hsame. f_equal. f_equal.
    assert (Hedit : edit_phone rec old new = rec).
    { destruct Hsame as [Hrej|Hmiss]; [now apply edit_phone_rejected|].
      apply edit_phone_missing. apply first_phone_None.
      destruct (first_phone old (phones rec)) as [[i ph]|] eqn:Hf; [|reflexivity].
      exfalso. apply Hmiss. apply first_phone_Some in Hf as (Hi & Hv & _).
      apply in_map_iff. exists ph. split; [assumption|].
      apply list_elem_of_In. eapply list_elem_of_lookup_2. exact Hi. }
    rewrite Hedit. now apply dict_set_same.
  - intros Hnot. destruct book as [|e rest]; [reflexivity|].
    destruct (contains (e :: rest) nm) eqn:Hc; [|reflexivity].
    apply contains_In in Hc. contradiction.
Qed.

(** X20.  In a ledger with one entry per name [show_all] lists every entry
    once, in the order of the ledger, with the values of its phones. *)
Theorem show_all_lists_every_entry (book : AddressBook.t) :
  wf book ->
  Bot.show_all book = map (fun kv => (fst kv, map value (phones (snd kv)))) book.
Proof.
  intros Hwf. unfold Bot.show_all, keys. rewrite map_map.
  apply map_ext_in. intros [k v] Hin. cbn [fst snd]. f_equal.
  unfold Bot.show_phone. cbn [Bot.unpack_first Bot.and_then].
  assert (Hc : contains book k = true).
  { apply contains_In. apply in_map_iff. now exists (k, v). }
  unfold find. now rewrite Hc, (dict_get_entry book k v Hwf Hin).
Qed.

Lemma show_all_lists_every_entry_witness :
  Bot.show_all [(PyStr.lit "Ann", john4)]
  = map (fun kv => (fst kv, map value (phones (snd kv)))) [(PyStr.lit "Ann", john4)].
Proof.
  apply (show_all_lists_every_entry [(PyStr.lit "Ann", john4)]).
  unfold wf. simpl. apply NoDup_singleton.
Defined.

(** X21.  For a name of the ledger [add_birthday] of the command line
    always answers "Contact is not updated", also when the date was parsed
    and stored: it compares the stored [Birthday] object with the text. *)
Theorem add_birthday_always_answers_not_updated
    (contacts : AddressBook.t) (nm text : str) (record : ContactRecord) :
  find contacts nm = Some record ->
  exists contacts' : AddressBook.t,
    Bot.add_birthday [nm; text] contacts
    = Bot.Return (contacts', Bot.Text (PyStr.lit "Contact is not updated"))
    /\ find contacts' nm
       = Some (match strptime text DATE_FORMAT with
               | Some dt => mkRecord (name record) (phones record) (Some (mkField dt))
               | None => record
               end)
    /\ (forall k : str, k <> nm -> find contacts' k = find contacts k).
Proof.
  intros Hfind. unfold Bot.add_birthday, Bot.add_birthday_func.
  cbn [Bot.unpack2 Bot.and_then]. rewrite Hfind.
  unfold add_birthday, Birthday_init.
  destruct (strptime text DATE_FORMAT) as [dt|].
  - eexists. split; [reflexivity|]. unfold find. split.
    + apply dict_get_set.
    + intros k Hk. apply dict_get_set_other. congruence.
  - eexists. split; [reflexivity|]. unfold find. split.
    + apply dict_get_set.
    + intros k Hk. apply dict_get_set_other. congruence.
Qed.

Lemma add_birthday_always_answers_not_updated_witness :
  exists contacts' : AddressBook.t,
    Bot.add_birthday [PyStr.lit "Sam"; PyStr.lit "15.03.1990"] sample_book
    = Bot.Return (contacts', Bot.Text (PyStr.lit "Contact is not updated"))
    /\ find contacts' (PyStr.lit "Sam")
       = Some (match strptime (PyStr.lit "15.03.1990") DATE_FORMAT with
               | Some dt => mkRecord (name sam) (phones sam) (Some (mkField dt))
               | None => sam
               end)
    /\ (forall k : str, k <> PyStr.lit "Sam" -> find contacts' k = find sample_book k).
Proof.
  apply (add_birthday_always_answers_not_updated sample_book (PyStr.lit "Sam")
           (PyStr.lit "15.03.1990") sam).
  reflexivity.
Defined.

(** X22.  For a name that the ledger does not hold, [add_birthday] and
    [show_birthday] of the command line raise an [AttributeError], which
    [input_error] does not catch. *)
Theorem unknown_name_raises_AttributeError
    (book : AddressBook.t) (nm text : str) (more : list str) :
  find book nm = None ->
  Bot.add_birthday [nm; text] book = Bot.Throw (Bot.NONE_HAS_NO "add_birthday")
  /\ Bot.show_birthday (nm :: more) book = Bot.Throw (Bot.NONE_HAS_NO "birthday").
Proof.
  intros Hfind. unfold Bot.add_birthday, Bot.add_birthday_func, Bot.show_birthday,
    Bot.show_birthday_func.
  cbn [Bot.unpack2 Bot.unpack_first Bot.and_then]. rewrite Hfind. split; reflexivity.
Qed.

Lemma unknown_name_raises_AttributeError_witness :
  Bot.add_birthday [PyStr.lit "Bob"; PyStr.lit "15.03.1990"] sample_book
  = Bot.Throw (Bot.NONE_HAS_NO "add_birthday")
  /\ Bot.show_birthday [PyStr.lit "Bob"] sample_book
     = Bot.Throw (Bot.NONE_HAS_NO "birthday").
Proof.
  apply (unknown_name_raises_AttributeError sample_book (PyStr.lit "Bob")
           (PyStr.lit "15.03.1990") []).
  reflexivity.
Defined.

(** X23.  With a birthday on 29 February in the ledger and a current year
    that is no leap year, the command [birthdays] answers "Give me your
    name and phone please.": the [ValueError] of the date is caught by
    [input_error]. *)
Theorem birthdays_answers_feb29_with_the_phone_message
    (today : date) (book : AddressBook.t) (k : str)
    (contact : ContactRecord) (b : Birthday) :
  In (k, contact) book ->
  birthday contact = Some b ->
  month (date_of (value b)) = 2 ->
  day (date_of (value b)) = 29 ->
  is_leap (year today) = false ->
  Bot.birthdays today book = Bot.Return (book, Bot.Text Bot.NAME_AND_PHONE_MSG).
Proof.
  intros Hin Hb Hm Hd Hleap.
  destruct (feb29_replace_year _ _ Hm Hd Hleap) as (msg & Hrep & _).
  assert (Hstep : upcoming_step today contact = Raise (ValueError msg)).
  { unfold upcoming_step, birthday_this_year. now rewrite Hb, Hrep. }
  destruct (upcoming_loop_raises today book k contact msg Hin Hstep) as (msg' & Hq).
  unfold Bot.birthdays, Bot.birthdays_func. now rewrite Hq.
Qed.

Lemma birthdays_answers_feb29_with_the_phone_message_witness :
  Bot.birthdays (mkdate 2025 6 10) [(PyStr.lit "Sam", sam); (PyStr.lit "Feb", feb)]
  = Bot.Return ([(PyStr.lit "Sam", sam); (PyStr.lit "Feb", feb)],
                Bot.Text Bot.NAME_AND_PHONE_MSG).
Proof.
  apply (birthdays_answers_feb29_with_the_phone_message (mkdate 2025 6 10)
           [(PyStr.lit "Sam", sam); (PyStr.lit "Feb", feb)] (PyStr.lit "Feb") feb
           (mkField (mkdatetime (mkdate 2000 2 29) 0 0 0 0))).
  - right. left. reflexivity.
  - reflexivity.
  - reflexivity.
  - reflexivity.
  - reflexivity.
Defined.

(** ** Reading a line *)

Lemma split_from_word (w rest acc : str) :
  forallb (fun c => negb (isspace_char c)) w = true ->
  Bot.split_from (w ++ rest) acc = Bot.split_from rest (acc ++ w).
Proof.
  revert acc. induction w as [|c w IH]; intros acc Hw; simpl.
  - now rewrite app_nil_r.
  - simpl in Hw. apply andb_true_iff in Hw as [Hc Hw].
    apply negb_true_iff in Hc. rewrite Hc. rewrite IH by assumption.
    now rewrite <- app_assoc.
Qed.

Lemma split_from_blank (s : str) :
  forallb isspace_char s = true -> Bot.split_from s [] = [].
Proof.
  induction s as [|c s IH]; simpl; [reflexivity|]. intros H.
  apply andb_true_iff in H as [Hc Hs]. rewrite Hc. now apply IH.
Qed.

Lemma is_word_inv (w : str) :
  Bot.is_word w = true ->
  w <> [] /\ forallb (fun c => negb (isspace_char c)) w = true.
Proof. destruct w; [discriminate|]. intros H. split; [discriminate | exact H]. Qed.

Lemma split_join (ws : list str) :
  forallb Bot.is_word ws = true -> Bot.split (PyStr.join [ord " "] ws) = ws.
Proof.
  unfold Bot.split. induction ws as [|w ws IH]; [reflexivity|].
  intros H. cbn [forallb] in H. apply andb_true_iff in H as [Hw Hws].
  apply is_word_inv in Hw as [Hne Hfree].
  destruct ws as [|w' ws].
  - cbn [PyStr.join]. rewrite <- (app_nil_r w) at 1.
    rewrite split_from_word by assumption. cbn. now destruct w.
  - change (PyStr.join [ord " "] (w :: w' :: ws))
      with (w ++ [ord " "] ++ PyStr.join [ord " "] (w' :: ws)).
    rewrite split_from_word by assumption. cbn [app Bot.split_from].
    change (isspace_char (ord " ")) with true. cbv iota.
    rewrite IH by assumption. now destruct w.
Qed.

Lemma lstrip_word (w : str) :
  (forall c t, w = c :: t -> isspace_char c = false) -> lstrip w = w.
Proof.
  destruct w as [|c t]; [reflexivity|]. intros H. simpl.
  now rewrite (H c t eq_refl).
Qed.

Lemma strip_word (w : str) : Bot.is_word w = true -> strip w = w.
Proof.
  intros Hw. apply is_word_inv in Hw as [Hne Hfree].
  assert (Hall : forall c, In c w -> isspace_char c = false).
  { intros c Hin. rewrite forallb_forall in Hfree.
    now apply negb_true_iff, Hfree. }
  unfold strip. rewrite (lstrip_word w).
  - rewrite (lstrip_word (rev w)); [apply rev_involutive|].
    intros c t Hrev. apply Hall. apply in_rev. rewrite Hrev. now left.
  - intros c t ->. apply Hall. now left.
Qed.

Section Lines.

Variable unicode_lower : str -> str.

(** X24.  [parse_input] on words joined by single spaces returns the first
    word in lower case as the command and the other words, unchanged, as
    its arguments. *)
Theorem parse_input_of_joined_words (cmd : str) (args : list str) :
  forallb Bot.is_word (cmd :: args) = true ->
  Bot.parse_input unicode_lower (PyStr.join [ord " "] (cmd :: args))
  = Bot.Return (Bot.lower unicode_lower cmd, args).
Proof.
  intros Hws. unfold Bot.parse_input. rewrite split_join by assumption.
  cbn [forallb] in Hws. apply andb_true_iff in Hws as [Hw _].
  now rewrite strip_word.
Qed.

(** X25.  On a line that is empty or holds white space only, [parse_input]
    raises a [ValueError] that nothing catches: the run of [main] ends
    there, whatever lines follow, and nothing is saved. *)
Theorem blank_line_ends_the_run
    (today : date) (book : AddressBook.t) (line : str) (rest : list (date * str)) :
  forallb isspace_char line = true ->
  Bot.parse_input unicode_lower line = Bot.Throw (Bot.not_enough "at least 1" 0)
  /\ Bot.main_loop unicode_lower book ((today, line) :: rest)
     = ([], Bot.Crashed (Bot.not_enough "at least 1" 0)).
Proof.
  intros Hblank.
  assert (Hparse : Bot.parse_input unicode_lower line
                   = Bot.Throw (Bot.not_enough "at least 1" 0)).
  { unfold Bot.parse_input, Bot.split. now rewrite split_from_blank. }
  split; [assumption|].
  cbn [Bot.main_loop]. unfold Bot.main_turn. now rewrite Hparse.
Qed.

Lemma lower_exit_command (cmd : str) :
  In cmd Bot.EXIT_COMMANDS -> Bot.lower unicode_lower cmd = cmd.
Proof.
  intros [<-|[<-|[<-|[<-|[]]]]]; reflexivity.
Qed.

(** X26.  A line whose command is "close", "exit", "quit" or "q" prints
    "Good bye!", saves the ledger as it is and ends the run: the lines
    after it are not read. *)
Theorem exit_command_saves_and_stops
    (today : date) (book : AddressBook.t) (line cmd : str) (args : list str)
    (rest : list (date * str)) :
  Bot.parse_input unicode_lower line = Bot.Return (cmd, args) ->
  In cmd Bot.EXIT_COMMANDS ->
  Bot.main_loop unicode_lower book ((today, line) :: rest)
  = ([Bot.Text (PyStr.lit "Good bye!")], Bot.Saved book).
Proof.
  intros Hparse Hcmd. cbn [Bot.main_loop]. unfold Bot.main_turn.
  rewrite Hparse. cbn [Bot.and_then]. rewrite lower_exit_command by assumption.
  replace (existsb (PyStr.eqb cmd) Bot.EXIT_COMMANDS) with true; [reflexivity|].
  symmetry. apply existsb_exists. exists cmd. split; [assumption | apply eqb_refl].
Qed.

(** X27.  A run of [main] saves the ledger only on an exit line: without
    one among its lines it ends by an exception or waits for input, and
    nothing is written. *)
Theorem saved_only_on_exit_line (book : AddressBook.t) (inputs : list (date * str)) :
  match snd (Bot.main_loop unicode_lower book inputs) with
  | Bot.Saved _ =>
      existsb (fun i => Bot.is_exit_line unicode_lower (snd i)) inputs = true
  | _ => True
  end.
Proof.
  revert book. induction inputs as [|[today line] rest IH]; intros book; [exact I|].
  cbn [Bot.main_loop existsb snd]. unfold Bot.is_exit_line at 1.
  unfold Bot.main_turn.
  destruct (Bot.parse_input unicode_lower line) as [[command args]|e]; [|exact I].
  cbn [Bot.and_then].
  destruct (existsb (PyStr.eqb (Bot.lower unicode_lower command)) Bot.EXIT_COMMANDS);
    [reflexivity|].
  cbn [orb].
  repeat match goal with
         | |- context [if PyStr.eqb command ?l then _ else _] =>
             destruct (PyStr.eqb command l)
         end;
    try match goal with
        | |- context [Bot.printing ?r] => destruct r as [[b p]|e]
        | |- context [Bot.show_phone ?a ?b] => destruct (Bot.show_phone a b)
        end;
    cbn [Bot.printing Bot.and_then fst snd]; try exact I;
    match goal with
    | |- context [Bot.main_loop unicode_lower ?b rest] =>
        specialize (IH b); destruct (Bot.main_loop unicode_lower b rest) as [out fin];
        exact IH
    end.
Qed.

End Lines.

Lemma parse_input_of_joined_words_witness :
  Bot.parse_input (fun s => s)
    (PyStr.join [ord " "] [PyStr.lit "ADD"; PyStr.lit "Ann"; PyStr.lit "1234567890"])
  = Bot.Return (Bot.lower (fun s => s) (PyStr.lit "ADD"),
                [PyStr.lit "Ann"; PyStr.lit "1234567890"]).
Proof.
  apply (parse_input_of_joined_words (fun s => s) (PyStr.lit "ADD")
           [PyStr.lit "Ann"; PyStr.lit "1234567890"]).
  reflexivity.
Defined.

Lemma blank_line_ends_the_run_witness :
  Bot.parse_input (fun s => s) (PyStr.lit "   ")
  = Bot.Throw (Bot.not_enough "at least 1" 0)
  /\ Bot.main_loop (fun s => s) sample_book
       [(monday_10_06_2024, PyStr.lit "   "); (monday_10_06_2024, PyStr.lit "exit")]
     = ([], Bot.Crashed (Bot.not_enough "at least 1" 0)).
Proof.
  apply (blank_line_ends_the_run (fun s => s) monday_10_06_2024 sample_book
           (PyStr.lit "   ") [(monday_10_06_2024, PyStr.lit "exit")]).
  reflexivity.
Defined.

Lemma exit_command_saves_and_stops_witness :
  Bot.main_loop (fun s => s) sample_book
    [(monday_10_06_2024, PyStr.lit "  QUIT now"); (monday_10_06_2024, PyStr.lit "all")]
  = ([Bot.Text (PyStr.lit "Good bye!")], Bot.Saved sample_book).
Proof.
  apply (exit_command_saves_and_stops (fun s => s) monday_10_06_2024 sample_book
           (PyStr.lit "  QUIT now") (PyStr.lit "quit") [PyStr.lit "now"]
           [(monday_10_06_2024, PyStr.lit "all")]).
  - reflexivity.
  - right. right. left. reflexivity.
Defined.

(** ** What ends a run *)

Lemma add_contact_returns (args : list str) (book : AddressBook.t) :
  exists x, Bot.add_contact args book = Bot.Return x.
Proof.
  unfold Bot.add_contact, Bot.add_contact_func.
  destruct (Nat.eq_dec (length args) 2%nat) as [Hlen|Hlen].
  - destruct args as [|a [|b [|c rest]]]; try discriminate Hlen. eexists. reflexivity.
  - destruct (unpack2_arity args Hlen) as (msg & ->). eexists. reflexivity.
Qed.

Lemma change_contact_returns (args : list str) (book : AddressBook.t) :
  exists x, Bot.change_contact args book = Bot.Return x.
Proof.
  unfold Bot.change_contact, Bot.change_contact_func.
  destruct (Nat.eq_dec (length args) 3%nat) as [Hlen|Hlen].
  - destruct args as [|a [|b [|c [|d rest]]]]; try discriminate Hlen.
    cbn [Bot.unpack3 Bot.and_then].
    destruct book as [|entry rest]; [eexists; reflexivity|].
    destruct (contains (entry :: rest) a) eqn:Hc; [|eexists; reflexivity].
    apply contains_In in Hc. destruct (dict_get_In _ _ Hc) as (rec & Hget).
    unfold find. rewrite Hget. eexists. reflexivity.
  - destruct (unpack3_arity args Hlen) as (msg & ->). eexists. reflexivity.
Qed.

Lemma birthdays_returns (today : date) (book : AddressBook.t) :
  exists x, Bot.birthdays today book = Bot.Return x.
Proof.
  unfold Bot.birthdays, Bot.birthdays_func.
  destruct (get_upcoming_birthdays today book) as [res|e] eqn:Hres.
  - eexists. reflexivity.
  - apply get_upcoming_birthdays_raises in Hres as (msg & ->). eexists. reflexivity.
Qed.

Lemma add_birthday_throws (args : list str) (book : AddressBook.t) (e : Bot.error) :
  Bot.add_birthday args book = Bot.Throw e ->
  exists nm text : str,
    args = [nm; text] /\ find book nm = None /\ e = Bot.NONE_HAS_NO "add_birthday".
Proof.
  unfold Bot.add_birthday, Bot.add_birthday_func.
  destruct (Nat.eq_dec (length args) 2%nat) as [Hlen|Hlen].
  - destruct args as [|a [|b [|c rest]]]; try discriminate Hlen.
    cbn [Bot.unpack2 Bot.and_then].
    destruct (find book a) as [record|] eqn:Hfind.
    + unfold add_birthday, Birthday_init.
      destruct (strptime b DATE_FORMAT); discriminate.
    + cbn [Bot.input_error Bot.NONE_HAS_NO]. intros [= <-]. now exists a, b.
  - destruct (unpack2_arity args Hlen) as (msg & ->). discriminate.
Qed.

Lemma show_birthday_throws (args : list str) (book : AddressBook.t) (e : Bot.error) :
  Bot.show_birthday args book = Bot.Throw e ->
  exists (nm : str) (more : list str),
    args = nm :: more /\ find book nm = None /\ e = Bot.NONE_HAS_NO "birthday".
Proof.
  unfold Bot.show_birthday, Bot.show_birthday_func.
  destruct args as [|nm more]; [discriminate|].
  cbn [Bot.unpack_first Bot.and_then].
  destruct (find book nm) as [rec|] eqn:Hfind; [discriminate|].
  cbn [Bot.input_error Bot.NONE_HAS_NO]. intros [= <-]. now exists nm, more.
Qed.

Lemma show_phone_throws (args : list str) (book : AddressBook.t) (e : Bot.error) :
  Bot.show_phone args book = Bot.Throw e ->
  args = [] /\ e = Bot.not_enough "at least 1" 0.
Proof.
  unfold Bot.show_phone. destruct args as [|nm more].
  - cbn. now intros [= <-].
  - cbn [Bot.unpack_first Bot.and_then].
    destruct (contains book nm); [|discriminate].
    destruct (find book nm); discriminate.
Qed.

(** X28.  One turn of [main] raises in four cases only: the line is blank;
    the command is "phone" without a name; the command is "add-birthday"
    with two arguments, or "show-birthday" with at least one, and the name
    is not in the ledger.  Every other line is answered. *)
Theorem main_turn_raises_only
    (unicode_lower : str -> str) (today : date) (book : AddressBook.t)
    (line : str) (e : Bot.error) :
  Bot.main_turn unicode_lower today book line = Bot.Throw e ->
  (Bot.split line = [] /\ e = Bot.not_enough "at least 1" 0)
  \/ exists (cmd : str) (args : list str),
       Bot.parse_input unicode_lower line = Bot.Return (cmd, args)
       /\ ((cmd = PyStr.lit "phone" /\ args = []
            /\ e = Bot.not_enough "at least 1" 0)
           \/ (cmd = PyStr.lit "add-birthday"
               /\ exists nm text : str,
                    args = [nm; text] /\ find book nm = None
                    /\ e = Bot.NONE_HAS_NO "add_birthday")
           \/ (cmd = PyStr.lit "show-birthday"
               /\ exists (nm : str) (more : list str),
                    args = nm :: more /\ find book nm = None
                    /\ e = Bot.NONE_HAS_NO "birthday")).
Proof.
  unfold Bot.main_turn.
  destruct (Bot.parse_input unicode_lower line) as [[cmd args]|e0] eqn:Hparse.
  - cbn [Bot.and_then]. intros Hturn. right. exists cmd, args.
    split; [reflexivity|].
    destruct (existsb _ Bot.EXIT_COMMANDS); [discriminate|].
    destruct (PyStr.eqb cmd (PyStr.lit "hello")); [discriminate|].
    destruct (PyStr.eqb cmd (PyStr.lit "add")).
    { destruct (add_contact_returns args book) as (x & Hx).
      rewrite Hx in Hturn. discriminate. }
    destruct (PyStr.eqb cmd (PyStr.lit "change")).
    { destruct (change_contact_returns args book) as (x & Hx).
      rewrite Hx in Hturn. discriminate. }
    destruct (PyStr.eqb cmd (PyStr.lit "phone")) eqn:Hphone.
    { apply eqb_true in Hphone. left.
      destruct (Bot.show_phone args book) as [l|e1] eqn:Hshow; [discriminate|].
      cbn [Bot.and_then] in Hturn. injection Hturn as <-.
      apply show_phone_throws in Hshow as [-> ->]. now repeat split. }
    destruct (PyStr.eqb cmd (PyStr.lit "all")); [discriminate|].
    destruct (PyStr.eqb cmd (PyStr.lit "add-birthday")) eqn:Hadd.
    { apply eqb_true in Hadd. right. left. split; [assumption|].
      destruct (Bot.add_birthday args book) as [x|e1] eqn:Hcall; [discriminate|].
      cbn [Bot.printing Bot.and_then] in Hturn. injection Hturn as <-.
      now apply add_birthday_throws in Hcall. }
    destruct (PyStr.eqb cmd (PyStr.lit "show-birthday")) eqn:Hshowb.
    { apply eqb_true in Hshowb. right. right. split; [assumption|].
      destruct (Bot.show_birthday args book) as [x|e1] eqn:Hcall; [discriminate|].
      cbn [Bot.printing Bot.and_then] in Hturn. injection Hturn as <-.
      now apply show_birthday_throws in Hcall. }
    destruct (PyStr.eqb cmd (PyStr.lit "birthdays")); [|discriminate].
    destruct (birthdays_returns today book) as (x & Hx).
    rewrite Hx in Hturn. discriminate.
  - cbn [Bot.and_then]. intros [= <-]. left.
    unfold Bot.parse_input in Hparse.
    destruct (Bot.split line) as [|w ws]; [|discriminate].
    injection Hparse as <-. now split.
Qed.

Lemma main_turn_raises_only_witness :
  (Bot.split (PyStr.lit "phone") = [] /\ Bot.not_enough "at least 1" 0
                                         = Bot.not_enough "at least 1" 0)
  \/ exists (cmd : str) (args : list str),
       Bot.parse_input (fun s => s) (PyStr.lit "phone") = Bot.Return (cmd, args)
       /\ ((cmd = PyStr.lit "phone" /\ args = []
            /\ Bot.not_enough "at least 1" 0 = Bot.not_enough "at least 1" 0)
           \/ (cmd = PyStr.lit "add-birthday"
               /\ exists nm text : str,
                    args = [nm; text] /\ find sample_book nm = None
                    /\ Bot.not_enough "at least 1" 0 = Bot.NONE_HAS_NO "add_birthday")
           \/ (cmd = PyStr.lit "show-birthday"
               /\ exists (nm : str) (more : list str),
                    args = nm :: more /\ find sample_book nm = None
                    /\ Bot.not_enough "at least 1" 0 = Bot.NONE_HAS_NO "birthday")).
Proof.
  apply (main_turn_raises_only (fun s => s) monday_10_06_2024 sample_book
           (PyStr.lit "phone") (Bot.not_enough "at least 1" 0)).
  reflexivity.
Defined.

(** ** Dates as text *)

(** X29.  A [Birthday] built from the text that [strftime] prints under
    [DATE_FORMAT] for a date of the years 1000 to 9999 holds that date at
    midnight; and when an accepted text was parsed to a date of those
    years, formatting that date and parsing again gives the same value. *)
Theorem Birthday_reads_what_strftime_writes :
  (forall d : date,
      valid_date d = true ->
      1000 <= year d ->
      Birthday_init (strftime d DATE_FORMAT) = Ok (mkField (mkdatetime d 0 0 0 0)))
  /\ (forall (text : str) (b : Birthday),
         Birthday_init text = Ok b ->
         1000 <= year (date_of (value b)) ->
         Birthday_init (strftime (date_of (value b)) DATE_FORMAT) = Ok b).
Proof.
  split.
  - intros d Hd H1000. unfold Birthday_init. now rewrite strptime_strftime.
  - intros text b. unfold Birthday_init.
    destruct (strptime text DATE_FORMAT) as [dt|] eqn:Hparse; [|discriminate].
    intros [= <-] H1000. cbn [value] in *.
    destruct (strptime_valid _ _ _ Hparse) as [Hvalid Hmid].
    rewrite strptime_strftime by assumption. now rewrite <- Hmid.
Qed.

Lemma get_upcoming_birthdays_returns_witness :
  exists res : list greeting,
    get_upcoming_birthdays monday_10_06_2024 sample_book = Ok res.
Proof.
  apply (get_upcoming_birthdays_returns monday_10_06_2024 sample_book).
  - cbn. lia.
  - intros k contact b Hin Hb.
    destruct Hin as [[= <- <-]|[[= <- <-]|[[= <- <-]|[]]]];
      injection Hb as <-; (split; [reflexivity | cbn; intros [H _]; discriminate H]).
Defined.
